(** * EduPath: the allocation engine of [edupath.py]

    A shallow embedding of [allocate] and [best_fit_allocation] and of the
    pandas and JSON values they work on, of the renderings
    [generate_allocations_table], [generate_full_pdf] and [generate_reports],
    and of the override endpoint of [api.py], followed by the properties of
    the allocation rule engine (C1-C8, C10) and of the rest (X1-X16).

    Conventions of the embedding
    - a Python exception is a value of [Error]; code that can raise returns
      [Result A];
    - a [DataFrame] is its column labels and its rows of cells, the row index
      being the positions [0 .. n-1] that [read_excel] assigns;
    - a catalog course is a JSON object whose ["name"] is a string and whose
      ["min_score"] may be absent ([None]) or an integer;
    - floating point cells and thresholds are outside the embedding. *)

From stdpp Require Import base option list strings gmap pretty.
From Stdlib Require Import ZArith Lia Ascii.

Local Open Scope Z_scope.

(** ** Exceptions *)

Inductive Error : Type :=
  | KeyError (key : string)
  | FileNotFoundError (path : string).

Inductive Result (A : Type) : Type :=
  | Ok (a : A)
  | Raise (e : Error).

Arguments Ok {A} a.
Arguments Raise {A} e.

Definition rbind {A B : Type} (m : Result A) (k : A → Result B) : Result B :=
  match m with
  | Ok a => k a
  | Raise e => Raise e
  end.

Notation "'let*' x := m 'in' k" := (rbind m (λ x, k))
  (at level 10, x pattern, m at level 100, k at level 200).

(** [for x in xs: body], threading the loop's variables as a state [S]; an
    exception in the body leaves the loop. *)
Fixpoint for_each {A S : Type} (body : A → S → Result S) (xs : list A) (s : S)
  : Result S :=
  match xs with
  | [] => Ok s
  | x :: xs' => let* s' := body x s in for_each body xs' s'
  end.

(** ** Cells, rows and tables (pandas) *)

(** The values a cell read by [read_excel] holds: text, an integer, or the
    NaN of an empty cell. *)
Inductive Cell : Type :=
  | CStr (s : string)
  | CInt (z : Z)
  | CNaN.

(** [str(cell)] *)
Definition py_str (c : Cell) : string :=
  match c with
  | CStr s => s
  | CInt z => pretty z
  | CNaN => "nan"
  end.

(** A row as [iterrows] yields it: the labels of [row.index] paired with the
    row's values. *)
Definition Series : Type := list (string * Cell).

(** [row.index] *)
Definition index (row : Series) : list string := row.*1.

(** [row[label]] *)
Definition series_get (row : Series) (label : string) : Result Cell :=
  match list_find (λ kv, kv.1 = label) row with
  | Some (_, kv) => Ok kv.2
  | None => Raise (KeyError label)
  end.

Record DataFrame : Type := mkDataFrame {
  columns : list string;
  rows : list (list Cell)
}.

(** A frame as [read_excel] builds it: distinct column labels (pandas renames
    repeated headers) and one cell per column in every row. *)
Definition well_formed (df : DataFrame) : Prop :=
  NoDup (columns df) ∧ Forall (λ r, length r = length (columns df)) (rows df).

(** Position of a column label. *)
Definition col_pos (label : string) (cols : list string) : option nat :=
  fst <$> list_find (λ c, c = label) cols.

(** [df[label] = v]: overwrites the column when the frame has it, appends it
    otherwise. *)
Definition set_column (label : string) (v : Cell) (df : DataFrame) : DataFrame :=
  match col_pos label (columns df) with
  | Some j => mkDataFrame (columns df) ((λ r, <[j:=v]> r) <$> rows df)
  | None => mkDataFrame (columns df ++ [label]) ((λ r, r ++ [v]) <$> rows df)
  end.

(** [df.at[idx, label] = v] for a row [idx] and a column [label] of the
    frame; [allocate] writes nowhere else (outside the frame pandas would
    enlarge it, here the frame is left as it is). *)
Definition set_at (idx : nat) (label : string) (v : Cell) (df : DataFrame)
  : DataFrame :=
  match col_pos label (columns df) with
  | Some j => mkDataFrame (columns df) (alter (λ r, <[j:=v]> r) idx (rows df))
  | None => df
  end.

(** [df.iterrows()]: index and row, from the values the frame holds when the
    loop starts. *)
Definition iterrows (df : DataFrame) : list (nat * Series) :=
  imap (λ i r, (i, zip (columns df) r)) (rows df).

(** The cell of row [i] in column [label]. *)
Definition cell (df : DataFrame) (i : nat) (label : string) : option Cell :=
  r ← rows df !! i; j ← col_pos label (columns df); r !! j.

(** ** The catalog document ([json.load] of [universities.json]) *)

Record Course : Type := mkCourse {
  name : string;
  min_score : option Z
}.

Record University : Type := mkUniversity {
  uni_name : string;
  courses : list Course
}.

(** [course.get("min_score", 0)] *)
Definition get_min_score (c : Course) : Z := default 0 (min_score c).

(** [c["min_score"]] *)
Definition index_min_score (c : Course) : Result Z :=
  match min_score c with
  | Some m => Ok m
  | None => Raise (KeyError "min_score")
  end.

(** [(c for u in universities for c in u["courses"])] *)
Definition all_courses (universities : list University) : list Course :=
  u ← universities; courses u.

(** [next((c["min_score"] for u in universities for c in u["courses"]
          if c["name"] == best_course), 0)]: the generator stops at the first
    course carrying the name, and indexing that course raises when it has no
    ["min_score"]. *)
Definition min_score_by_name (universities : list University)
    (best_course : string) : Result Z :=
  match list_find (λ c, name c = best_course) (all_courses universities) with
  | Some (_, c) => index_min_score c
  | None => Ok 0
  end.

(** The three local variables of [best_fit_allocation]:
    [(best_uni, best_course, reasoning)]. *)
Definition Best : Type := (string * string * string)%type.

Definition no_course : Best := ("", "", "No suitable course found").

(** [f"Total score {total_score} meets minimum {min_score}"] *)
Definition meets_minimum (total_score min : Z) : string :=
  "Total score " +:+ pretty total_score +:+ " meets minimum " +:+ pretty min.

(** The body of the inner loop (lines 72-78). *)
Definition consider_course (universities : list University) (total_score : Z)
    (uni_name : string) (course : Course) (best : Best) : Result Best :=
  let min := get_min_score course in
  if bool_decide (min ≤ total_score) then
    let* replace :=
      if bool_decide (best.1.2 = "") then Ok true
      else let* m := min_score_by_name universities best.1.2 in
           Ok (bool_decide (m < min)) in
    if replace : bool
    then Ok (uni_name, name course, meets_minimum total_score min)
    else Ok best
  else Ok best.

(** The body of the outer loop (lines 70-78). *)
Definition consider_university (universities : list University)
    (total_score : Z) (uni : University) (best : Best) : Result Best :=
  for_each (consider_course universities total_score (uni_name uni))
           (courses uni) best.

(** [best_fit_allocation(student_row, universities, total_score)]; the row is
    not read by the function. *)
Definition best_fit_allocation (student_row : Series)
    (universities : list University) (total_score : Z) : Result Best :=
  for_each (consider_university universities total_score) universities
           no_course.


(** ** Scores *)

Definition GRADE_TO_SCORE : gmap string Z :=
  list_to_map [("A", 5); ("B", 4); ("C", 3); ("D", 2); ("E", 1); ("F", 0)].

(** [sum(GRADE_TO_SCORE.get(str(row[sub]), 0) for sub in row.index
         if sub not in ["Student ID", "Name"])] *)
Definition total_score (row : Series) : Result Z :=
  for_each
    (λ sub acc, let* v := series_get row sub in
                Ok (acc + default 0 (GRADE_TO_SCORE !! py_str v)))
    (filter (λ sub, sub ∉ ["Student ID"; "Name"]) (index row)) 0.

(** ** Overrides and the allocation loop *)

(** An entry of the override table:
    [{"university": university, "course": course}]. *)
Record Override : Type := mkOverride {
  university : string;
  course : string
}.

(** [overrides and student_id in overrides], with the entry
    [overrides[student_id]] found; [overrides] defaults to [None]. *)
Definition find_override (overrides : option (gmap string Override))
    (student_id : string) : option Override :=
  match overrides with
  | None => None
  | Some table =>
      if bool_decide (size table = 0%nat) then None else table !! student_id
  end.

(** What one iteration of the loop of [allocate] decides for its row
    (lines 38-51): university, course and reasoning. *)
Definition allocate_row (universities : list University)
    (overrides : option (gmap string Override)) (row : Series) : Result Best :=
  let* id := series_get row "Student ID" in
  let student_id := py_str id in
  match find_override overrides student_id with
  | Some entry => Ok (university entry, course entry, "Manual override applied")
  | None =>
      let* total := total_score row in
      best_fit_allocation row universities total
  end.

(** The three [df.at] writes that end an iteration (lines 42-44 and 52-54). *)
Definition write_result (idx : nat) (r : Best) (df : DataFrame) : DataFrame :=
  set_at idx "Reasoning" (CStr r.2)
    (set_at idx "Allocated Course" (CStr r.1.2)
      (set_at idx "Allocated University" (CStr r.1.1) df)).

(** One iteration of [for idx, row in df.iterrows()]. *)
Definition allocate_step (universities : list University)
    (overrides : option (gmap string Override)) (ir : nat * Series)
    (df : DataFrame) : Result DataFrame :=
  let* r := allocate_row universities overrides ir.2 in
  Ok (write_result ir.1 r df).

(** Lines 33-35: [df["Allocated University"] = ""], then the same for
    ["Allocated Course"] and ["Reasoning"]. *)
Definition blank_result_columns (df : DataFrame) : DataFrame :=
  set_column "Reasoning" (CStr "")
    (set_column "Allocated Course" (CStr "")
      (set_column "Allocated University" (CStr "") df)).

(** Lines 33-56 of [allocate]: the frame once the files are read. *)
Definition allocate_frame (df : DataFrame) (universities : list University)
    (overrides : option (gmap string Override)) : Result DataFrame :=
  let df := blank_result_columns df in
  for_each (allocate_step universities overrides) (iterrows df) df.

(** ** Files *)

(** The files [allocate] reads, by path: spreadsheets as [read_excel] parses
    them and catalog documents as [json.load] parses them. *)
Record World : Type := mkWorld {
  excel_files : gmap string DataFrame;
  json_files : gmap string (list University)
}.

(** A computation that may read or write the files and may raise. *)
Definition IO (A : Type) : Type := World → Result A * World.

Definition io_bind {A B : Type} (m : IO A) (k : A → IO B) : IO B :=
  λ w, match m w with
       | (Ok a, w') => k a w'
       | (Raise e, w') => (Raise e, w')
       end.

Definition io_lift {A : Type} (r : Result A) : IO A := λ w, (r, w).

Notation "'io*' x := m 'in' k" := (io_bind m (λ x, k))
  (at level 10, x pattern, m at level 100, k at level 200).

(** [pd.read_excel(excel_path)] *)
Definition read_excel (path : string) : IO DataFrame :=
  λ w, match excel_files w !! path with
       | Some df => (Ok df, w)
       | None => (Raise (FileNotFoundError path), w)
       end.

(** [json.load(f)] on [open(uni_json_path)] *)
Definition json_load (path : string) : IO (list University) :=
  λ w, match json_files w !! path with
       | Some universities => (Ok universities, w)
       | None => (Raise (FileNotFoundError path), w)
       end.

(** [allocate(excel_path, uni_json_path, overrides=None)] *)
Definition allocate (excel_path uni_json_path : string)
    (overrides : option (gmap string Override)) : IO DataFrame :=
  io* df := read_excel excel_path in
  io* universities := json_load uni_json_path in
  io_lift (allocate_frame df universities overrides).


(** ** Auxiliary notions used by the statements *)

(** The catalog in iteration order: every course with the name of its
    university, universities first, then courses within a university. *)
Definition entries (universities : list University) : list (string * Course) :=
  u ← universities; (λ c, (uni_name u, c)) <$> courses u.

(** The three columns [allocate] writes. *)
Definition result_columns : list string :=
  ["Allocated University"; "Allocated Course"; "Reasoning"].

(** Every course of the catalog carries a ["min_score"]. *)
Definition thresholds_present (universities : list University) : Prop :=
  Forall (λ c, is_Some (min_score c)) (all_courses universities).

(** The grade-to-score mapping as the specification words it: A=5, B=4, C=3,
    D=2, E=1, F=0, and 0 for any other value. *)
Definition grade_points (g : string) : Z :=
  if decide (g = "A") then 5
  else if decide (g = "B") then 4
  else if decide (g = "C") then 3
  else if decide (g = "D") then 2
  else if decide (g = "E") then 1
  else 0.

(** The fields of a record other than the identifier and the display name. *)
Definition subject_fields (row : Series) : Series :=
  filter (λ kv, kv.1 ∉ ["Student ID"; "Name"]) row.

(** The sum of the grade points of a list of fields. *)
Definition grade_sum (fields : Series) : Z :=
  foldr (λ kv acc, grade_points (py_str kv.2) + acc) 0 fields.

(** A decision that places a student of score [total] in a course of the
    catalog the student qualifies for, the reasoning being the sentence that
    embeds the score and the minimum score of that course. *)
Definition placement (universities : list University) (total : Z) (r : Best)
  : Prop :=
  ∃ u c, u ∈ universities ∧ c ∈ courses u ∧ get_min_score c ≤ total ∧
    r = (uni_name u, name c,
         "Total score " +:+ pretty total +:+ " meets minimum "
           +:+ pretty (get_min_score c)).

(** Row [i] of the frame carries the decision [r] in the three result
    columns. *)
Definition holds_decision (df : DataFrame) (i : nat) (r : Best) : Prop :=
  cell df i "Allocated University" = Some (CStr r.1.1) ∧
  cell df i "Allocated Course" = Some (CStr r.1.2) ∧
  cell df i "Reasoning" = Some (CStr r.2).

(** The selection the specification describes, as one pass over the entries
    that keeps a running best: a candidate replaces the running best only
    when its minimum score is strictly greater, so the first candidate of
    greatest minimum score wins. *)
Definition keep_best (total : Z) (best : option (string * Course))
    (e : string * Course) : option (string * Course) :=
  if bool_decide (get_min_score e.2 ≤ total) then
    match best with
    | None => Some e
    | Some b =>
        if bool_decide (get_min_score b.2 < get_min_score e.2)
        then Some e else best
    end
  else best.

Definition select_best (total : Z) (es : list (string * Course))
  : option (string * Course) :=
  foldl (keep_best total) None es.

(** The decision that reports a selection. *)
Definition decision_of (total : Z) (best : option (string * Course)) : Best :=
  match best with
  | None => no_course
  | Some e => (e.1, name e.2, meets_minimum total (get_min_score e.2))
  end.

(** The course names of the catalog are non-empty and no two courses, of
    the same or of different universities, share one. *)
Definition distinct_names (universities : list University) : Prop :=
  NoDup (name <$> all_courses universities) ∧
  Forall (λ c, name c ≠ "") (all_courses universities).

(** ** Example data *)

Definition catalog_xy : list University :=
  [ mkUniversity "UniA" [mkCourse "CourseX" (Some 5)];
    mkUniversity "UniB" [mkCourse "CourseY" (Some 9)] ].

Definition student_ab : Series :=
  [("Student ID", CStr "S1"); ("Name", CStr "Ann");
   ("Math", CStr "A"); ("Eng", CStr "B")].

Definition roster_ab : DataFrame :=
  mkDataFrame ["Student ID"; "Name"; "Math"; "Eng"]
    [ [CStr "S1"; CStr "Ann"; CStr "A"; CStr "B"];
      [CInt 42; CStr "Bob"; CStr "F"; CStr "n/a"] ].

(** Two universities offer a course of the same name. *)
Definition catalog_shared_name : list University :=
  [ mkUniversity "UniA" [mkCourse "CS" (Some 2)];
    mkUniversity "UniB" [mkCourse "CS" (Some 8); mkCourse "Math" (Some 5)] ].

Definition catalog_shared_name_tie : list University :=
  [ mkUniversity "UniA" [mkCourse "CS" (Some 2)];
    mkUniversity "UniB" [mkCourse "CS" (Some 5); mkCourse "Math" (Some 5)] ].

(** A course without a minimum score, followed by one with. *)
Definition catalog_open_course : list University :=
  [ mkUniversity "UniA" [mkCourse "Open" None; mkCourse "Math" (Some 3)] ].

Definition world_open_course : World :=
  mkWorld {[ "roster.xlsx" := roster_ab ]}
          {[ "universities.json" := catalog_open_course ]}.

Definition world_ab : World :=
  mkWorld {[ "roster.xlsx" := roster_ab ]}
          {[ "universities.json" := catalog_xy ]}.

Definition override_42 : option (gmap string Override) :=
  Some {[ "42" := mkOverride "UniC" "CourseZ" ]}.

(** A roster of two students with letter grades, and the files in which it
    is read with a catalog. *)
Definition roster_cd : DataFrame :=
  mkDataFrame ["Student ID"; "Name"; "Math"; "Eng"]
    [ [CStr "S1"; CStr "Ann"; CStr "A"; CStr "B"];
      [CInt 42; CStr "Bob"; CStr "C"; CStr "D"] ].

Definition world_cd (universities : list University) : World :=
  mkWorld {[ "roster.xlsx" := roster_cd ]}
          {[ "universities.json" := universities ]}.

(** The table [allocate] returns for [roster_cd], [catalog_xy] and
    [override_42]. *)
Definition allocated_cd : DataFrame :=
  mkDataFrame
    ["Student ID"; "Name"; "Math"; "Eng";
     "Allocated University"; "Allocated Course"; "Reasoning"]
    [ [CStr "S1"; CStr "Ann"; CStr "A"; CStr "B";
       CStr "UniB"; CStr "CourseY"; CStr "Total score 9 meets minimum 9"];
      [CInt 42; CStr "Bob"; CStr "C"; CStr "D";
       CStr "UniC"; CStr "CourseZ"; CStr "Manual override applied"] ].

(** [catalog_open_course] with the minimum score 0 of Open written out. *)
Definition catalog_open_zero : list University :=
  [ mkUniversity "UniA" [mkCourse "Open" (Some 0); mkCourse "Math" (Some 3)] ].

(** A roster with a subject called "Reasoning". *)
Definition roster_reasoning : DataFrame :=
  mkDataFrame ["Student ID"; "Name"; "Math"; "Reasoning"]
    [ [CStr "S1"; CStr "Ann"; CStr "A"; CStr "B"] ].

Definition world_reasoning : World :=
  mkWorld {[ "roster.xlsx" := roster_reasoning ]}
          {[ "universities.json" := catalog_xy ]}.

(** ** Rendering: [generate_allocations_table], [generate_full_pdf],
       [generate_reports]

    A value formatted into an f-string, [f"{value}"], is the text [str]
    gives, [py_str]. What the functions do to the file system is kept as the
    sequence of their calls, on paths that are not interpreted; failures of
    the file system and of the PDF renderer are outside the embedding. *)

(** The line feed and the double quote of the templates. *)
Definition nl : string := String "010"%char "".
Definition dq : string := String "034"%char "".

(** The columns the three functions read by name. *)
Definition display_columns : list string :=
  ["Student ID"; "Name"; "Allocated University"; "Allocated Course";
   "Reasoning"].

(** [generate_allocations_table(df_alloc)] *)
Definition generate_allocations_table (df_alloc : DataFrame) : Result string :=
  let* html :=
    for_each
      (λ ir html,
         let row := ir.2 in
         let* id := series_get row "Student ID" in
         let* nm := series_get row "Name" in
         let html := html +:+ ("<tr><td>" +:+ py_str id +:+ "</td><td>"
                                 +:+ py_str nm +:+ "</td>") in
         let* uni := series_get row "Allocated University" in
         let* crs := series_get row "Allocated Course" in
         let html := html +:+ ("<td>" +:+ py_str uni +:+ "</td><td>"
                                 +:+ py_str crs +:+ "</td>") in
         let* reason := series_get row "Reasoning" in
         Ok (html +:+ ("<td>" +:+ py_str reason +:+ "</td></tr>")))
      (iterrows df_alloc)
      "<table><tr><th>Student ID</th><th>Name</th><th>Allocated University</th><th>Allocated Course</th><th>Reasoning</th></tr>" in
  Ok (html +:+ "</table>").

(** A path: a directory given by the caller, or [parent / name]. *)
Inductive Path : Type :=
  | Dir (p : string)
  | Child (parent : Path) (name : string).

(** The calls that reach the file system. *)
Inductive Event : Type :=
  | Mkdir (p : Path)                       (* [p.mkdir(exist_ok=True)] *)
  | WriteText (p : Path) (text : string)   (* [p.write_text(text, ...)] *)
  | WritePdf (p : Path) (html : string).   (* [HTML(string=html).write_pdf(p)] *)

(** A computation that makes such calls and may raise: the calls made, then
    the value or the exception. *)
Definition Eff (A : Type) : Type := (list Event * Result A)%type.

Definition eff_bind {A B : Type} (m : Eff A) (k : A → Eff B) : Eff B :=
  match m with
  | (events, Ok a) => let '(events', r) := k a in (events ++ events', r)
  | (events, Raise e) => (events, Raise e)
  end.

Definition eff_lift {A : Type} (r : Result A) : Eff A := ([], r).

Definition emit (e : Event) : Eff unit := ([e], Ok tt).

Notation "'eff*' x := m 'in' k" := (eff_bind m (λ x, k))
  (at level 10, x pattern, m at level 100, k at level 200).

(** [for x in xs: body] for a body that only acts. *)
Fixpoint eff_for_each {A : Type} (body : A → Eff unit) (xs : list A) : Eff unit :=
  match xs with
  | [] => ([], Ok tt)
  | x :: xs' => eff* _ := body x in eff_for_each body xs'
  end.

(** Lines 126-163 of [generate_full_pdf]: the document handed to the
    renderer. *)
Definition full_pdf_html (df_alloc : DataFrame) : Result string :=
  let html_content :=
    nl +:+ "    <html>"
    +:+ nl +:+ "    <head>"
    +:+ nl +:+ "    <style>"
    +:+ nl +:+ "    body { font-family: Arial, sans-serif; margin: 20px; }"
    +:+ nl +:+ "    h1 { text-align: center; }"
    +:+ nl +:+ "    table { width: 100%; border-collapse: collapse; margin-bottom: 20px; }"
    +:+ nl +:+ "    th, td { border: 1px solid #333; padding: 5px; text-align: center; font-size: 12px; }"
    +:+ nl +:+ "    th { background-color: #3498db; color: white; }"
    +:+ nl +:+ "    </style>"
    +:+ nl +:+ "    </head>"
    +:+ nl +:+ "    <body>"
    +:+ nl +:+ "    <h1>Full Student Allocations</h1>"
    +:+ nl +:+ "    <table>"
    +:+ nl +:+ "    <tr>"
    +:+ nl +:+ "        <th>Student ID</th>"
    +:+ nl +:+ "        <th>Name</th>"
    +:+ nl +:+ "        <th>Allocated University</th>"
    +:+ nl +:+ "        <th>Allocated Course</th>"
    +:+ nl +:+ "        <th>Reasoning</th>"
    +:+ nl +:+ "    </tr>"
    +:+ nl +:+ "    " in
  let* html_content :=
    for_each
      (λ ir html_content,
         let row := ir.2 in
         let* id := series_get row "Student ID" in
         let* nm := series_get row "Name" in
         let* uni := series_get row "Allocated University" in
         let* crs := series_get row "Allocated Course" in
         let* reason := series_get row "Reasoning" in
         Ok (html_content +:+
               (nl +:+ "        <tr>"
                +:+ nl +:+ "            <td>" +:+ py_str id +:+ "</td>"
                +:+ nl +:+ "            <td>" +:+ py_str nm +:+ "</td>"
                +:+ nl +:+ "            <td>" +:+ py_str uni +:+ "</td>"
                +:+ nl +:+ "            <td>" +:+ py_str crs +:+ "</td>"
                +:+ nl +:+ "            <td>" +:+ py_str reason +:+ "</td>"
                +:+ nl +:+ "        </tr>"
                +:+ nl +:+ "        ")))
      (iterrows df_alloc) html_content in
  Ok (html_content +:+
        (nl +:+ "    </table>"
         +:+ nl +:+ "    </body></html>"
         +:+ nl +:+ "    ")).

(** [generate_full_pdf(df_alloc, pdf_path)] *)
Definition generate_full_pdf (df_alloc : DataFrame) (pdf_path : Path) : Eff unit :=
  eff* html_content := eff_lift (full_pdf_html df_alloc) in
  emit (WritePdf pdf_path html_content).

(** The f-string of lines 94-101, as a function of what it embeds. *)
Definition report_head (student_id nm : string) : string :=
  nl +:+ "        <html>"
  +:+ nl +:+ "        <head><title>Report " +:+ student_id +:+ "</title></head>"
  +:+ nl +:+ "        <body>"
  +:+ nl +:+ "        <h2>Student Report: " +:+ nm
               +:+ " (" +:+ student_id +:+ ")</h2>"
  +:+ nl +:+ "        <table border=" +:+ dq +:+ "1" +:+ dq
               +:+ " cellpadding=" +:+ dq +:+ "5" +:+ dq
               +:+ " cellspacing=" +:+ dq +:+ "0" +:+ dq +:+ ">"
  +:+ nl +:+ "        <tr><th>Subject</th><th>Grade</th></tr>"
  +:+ nl +:+ "        ".

(** The f-string of lines 105-111, as a function of what it embeds. *)
Definition report_tail (uni crs reason : string) : string :=
  nl +:+ "        </table>"
  +:+ nl +:+ "        <p><b>Allocated University:</b> " +:+ uni +:+ "</p>"
  +:+ nl +:+ "        <p><b>Allocated Course:</b> " +:+ crs +:+ "</p>"
  +:+ nl +:+ "        <p><b>Reasoning:</b> " +:+ reason +:+ "</p>"
  +:+ nl +:+ "        </body></html>"
  +:+ nl +:+ "        ".

(** Lines 93-111 of [generate_reports]: the identifier and the document of
    one row. *)
Definition report_html (df_alloc : DataFrame) (row : Series)
  : Result (string * string) :=
  let* id := series_get row "Student ID" in
  let student_id := py_str id in
  let* nm := series_get row "Name" in
  let html_content := report_head student_id (py_str nm) in
  let* html_content :=
    for_each
      (λ col html_content,
         if bool_decide (col ∉ display_columns) then
           let* v := series_get row col in
           Ok (html_content +:+
                 ("<tr><td>" +:+ col +:+ "</td><td>" +:+ py_str v
                    +:+ "</td></tr>"))
         else Ok html_content)
      (columns df_alloc) html_content in
  let* uni := series_get row "Allocated University" in
  let* crs := series_get row "Allocated Course" in
  let* reason := series_get row "Reasoning" in
  Ok (student_id,
      html_content +:+ report_tail (py_str uni) (py_str crs) (py_str reason)).

(** [generate_reports(df_alloc, report_dir, pdf_dir)] *)
Definition generate_reports (df_alloc : DataFrame) (report_dir pdf_dir : Path)
  : Eff unit :=
  eff* _ := emit (Mkdir report_dir) in
  eff* _ := emit (Mkdir pdf_dir) in
  eff_for_each
    (λ ir,
       eff* report := eff_lift (report_html df_alloc ir.2) in
       let '(student_id, html_content) := report in
       eff* _ := emit (WriteText (Child report_dir (student_id +:+ ".html"))
                                 html_content) in
       emit (WritePdf (Child pdf_dir (student_id +:+ ".pdf")) html_content))
    (iterrows df_alloc).

(** ** Auxiliary notions for the renderings *)

(** [f] on every element in order, up to the first exception. *)
Fixpoint collect {A B : Type} (f : A → Result B) (xs : list A)
  : Result (list B) :=
  match xs with
  | [] => Ok []
  | x :: xs' => let* y := f x in let* ys := collect f xs' in Ok (y :: ys)
  end.

Definition concat_strings (ls : list string) : string :=
  foldr String.append "" ls.

(** The five values a row shows, read in the order the code reads them:
    identifier, name, university, course, reasoning. *)
Definition display_row (row : Series)
  : Result (string * string * string * string * string) :=
  let* id := series_get row "Student ID" in
  let* nm := series_get row "Name" in
  let* uni := series_get row "Allocated University" in
  let* crs := series_get row "Allocated Course" in
  let* reason := series_get row "Reasoning" in
  Ok (py_str id, py_str nm, py_str uni, py_str crs, py_str reason).

Definition display_values (df : DataFrame)
  : Result (list (string * string * string * string * string)) :=
  collect (λ ir, display_row ir.2) (iterrows df).

(** A row of the table of [generate_allocations_table]. *)
Definition table_row (v : string * string * string * string * string) : string :=
  "<tr><td>" +:+ v.1.1.1.1 +:+ "</td><td>" +:+ v.1.1.1.2 +:+ "</td>"
  +:+ "<td>" +:+ v.1.1.2 +:+ "</td><td>" +:+ v.1.2 +:+ "</td>"
  +:+ "<td>" +:+ v.2 +:+ "</td></tr>".

(** A row of the document of [generate_full_pdf]. *)
Definition pdf_row (v : string * string * string * string * string) : string :=
  nl +:+ "        <tr>"
  +:+ nl +:+ "            <td>" +:+ v.1.1.1.1 +:+ "</td>"
  +:+ nl +:+ "            <td>" +:+ v.1.1.1.2 +:+ "</td>"
  +:+ nl +:+ "            <td>" +:+ v.1.1.2 +:+ "</td>"
  +:+ nl +:+ "            <td>" +:+ v.1.2 +:+ "</td>"
  +:+ nl +:+ "            <td>" +:+ v.2 +:+ "</td>"
  +:+ nl +:+ "        </tr>"
  +:+ nl +:+ "        ".

(** The table [allocate] returns for [roster_ab], [catalog_xy] and
    [override_42]. *)
Definition allocated_ab : DataFrame :=
  mkDataFrame
    ["Student ID"; "Name"; "Math"; "Eng";
     "Allocated University"; "Allocated Course"; "Reasoning"]
    [ [CStr "S1"; CStr "Ann"; CStr "A"; CStr "B";
       CStr "UniB"; CStr "CourseY"; CStr "Total score 9 meets minimum 9"];
      [CInt 42; CStr "Bob"; CStr "F"; CStr "n/a";
       CStr "UniC"; CStr "CourseZ"; CStr "Manual override applied"] ].

(** A line of the subject table of a report. *)
Definition subject_line (kv : string * Cell) : string :=
  "<tr><td>" +:+ kv.1 +:+ "</td><td>" +:+ py_str kv.2 +:+ "</td></tr>".

(** The fields a report lists as subjects: those of the columns other than
    the five read by name. *)
Definition report_fields (row : Series) : Series :=
  filter (λ kv, kv.1 ∉ display_columns) row.

(** The two writes of [generate_reports] for one report. *)
Definition report_writes (report_dir pdf_dir : Path) (report : string * string)
  : list Event :=
  [ WriteText (Child report_dir (report.1 +:+ ".html")) report.2;
    WritePdf (Child pdf_dir (report.1 +:+ ".pdf")) report.2 ].

(** ** The override endpoint of [api.py]

    The handler is a function of what it reads: the module-level [overrides]
    dictionary, what [UPLOAD_DIR.glob("*.xlsx")] yields (the paths in its
    order, each with its [os.path.getctime], times as integers) and the
    files. It returns the dictionary as it leaves it, the calls made on the
    file system and the response; an exception that escapes the handler is
    the response [Failed]. *)

(** The paths that [api.py] derives from its own location. *)
Record Site : Type := mkSite {
  UNI_JSON : string;
  REPORT_DIR : Path;
  PDF_DIR : Path
}.

Inductive Failure : Type :=
  | ValueError                 (* [max()] of an empty sequence *)
  | Raised (e : Error).

Inductive Response : Type :=
  | HTMLResponse (html : string)
  | Failed (f : Failure).

(** [max(paths, key=os.path.getctime)] on a non-empty sequence: a later path
    replaces the running maximum only when its time is strictly greater. *)
Fixpoint max_by_ctime (best : string * Z) (rest : list (string * Z))
  : string * Z :=
  match rest with
  | [] => best
  | x :: rest' =>
      max_by_ctime (if bool_decide (best.2 < x.2) then x else best) rest'
  end.

(** [apply_override(student_id, university, course)] *)
Definition apply_override (site : Site) (student_id university course : string)
    (overrides : gmap string Override) (xlsx_uploads : list (string * Z))
    (w : World) : gmap string Override * list Event * Response :=
  let overrides := <[student_id := mkOverride university course]> overrides in
  match xlsx_uploads with
  | [] => (overrides, [], Failed ValueError)
  | first :: rest =>
      let latest_file := (max_by_ctime first rest).1 in
      match (allocate latest_file (UNI_JSON site) (Some overrides) w).1 with
      | Raise e => (overrides, [], Failed (Raised e))
      | Ok df_alloc =>
          match generate_reports df_alloc (REPORT_DIR site) (PDF_DIR site) with
          | (events, Raise e) => (overrides, events, Failed (Raised e))
          | (events, Ok _) =>
              match generate_allocations_table df_alloc with
              | Ok html_table => (overrides, events, HTMLResponse html_table)
              | Raise e => (overrides, events, Failed (Raised e))
              end
          end
      end
  end.

Definition site_ab : Site :=
  mkSite "universities.json" (Dir "reports") (Dir "pdfs").

(** Membership in a list written out in full. *)
Ltac in_literal :=
  solve [ unfold result_columns;
          repeat first [ apply list_elem_of_here | apply list_elem_of_further ] ].

(** ** Loops *)

Lemma for_each_app {A S : Type} (body : A → S → Result S) (xs ys : list A) (s : S) :
  for_each body (xs ++ ys) s
  = let* s' := for_each body xs s in for_each body ys s'.
Proof.
  revert s. induction xs as [|x xs IH]; intros s; simpl; [done|].
  destruct (body x s); simpl; [apply IH | done].
Qed.

Lemma for_each_fmap {A B S : Type} (f : A → B) (body : B → S → Result S)
    (xs : list A) (s : S) :
  for_each body (f <$> xs) s = for_each (λ x, body (f x)) xs s.
Proof.
  revert s. induction xs as [|x xs IH]; intros s; simpl; [done|].
  destruct (body (f x) s); simpl; [apply IH | done].
Qed.

(** An invariant of the loop's state that every iteration keeps holds when
    the loop ends. *)
Lemma for_each_invariant {A S : Type} (I : S → Prop) (body : A → S → Result S)
    (xs : list A) (s s' : S) :
  (∀ x t t', x ∈ xs → I t → body x t = Ok t' → I t') →
  I s → for_each body xs s = Ok s' → I s'.
Proof.
  revert s. induction xs as [|x xs IH]; intros s Hstep Hs; simpl.
  - by intros [= <-].
  - destruct (body x s) as [t|] eqn:Hb; simpl; [|done].
    apply IH.
    + intros y u u' Hy. apply Hstep. by right.
    + eapply Hstep; [by left | done | done].
Qed.

(** The two nested loops of [best_fit_allocation] visit the catalog's entries
    in order. *)
Lemma best_fit_as_entries (us universities : list University) (total : Z) (b : Best) :
  for_each (consider_university universities total) us b
  = for_each (λ e, consider_course universities total e.1 e.2) (entries us) b.
Proof.
  revert b. induction us as [|u us IH]; intros b; [done|].
  unfold entries in *. simpl. rewrite for_each_app.
  unfold consider_university at 1. rewrite for_each_fmap. simpl.
  destruct (for_each _ (courses u) b); simpl; [apply IH | done].
Qed.

Lemma elem_of_entries (universities : list University) (e : string * Course) :
  e ∈ entries universities
  ↔ ∃ u, u ∈ universities ∧ e.2 ∈ courses u ∧ e.1 = uni_name u.
Proof.
  unfold entries. rewrite list_elem_of_bind. split.
  - intros (u & He & Hu). apply list_elem_of_fmap in He as (c & -> & Hc).
    by exists u.
  - intros (u & Hu & Hc & Hn). exists u. split; [|done].
    apply list_elem_of_fmap. exists e.2. split; [|done].
    destruct e; simpl in *; by subst.
Qed.

(** ** Scores *)

Lemma grade_lookup (g : string) :
  default 0 (GRADE_TO_SCORE !! g) = grade_points g.
Proof.
  unfold grade_points. repeat case_decide; subst; try reflexivity.
  unfold GRADE_TO_SCORE. simpl.
  rewrite !lookup_insert_ne by done.
  rewrite lookup_insert. case_decide; [done|]. by rewrite lookup_empty.
Qed.

Lemma grade_points_nonneg (g : string) : 0 ≤ grade_points g.
Proof. unfold grade_points. repeat case_decide; lia. Qed.


(** [row[sub]] does not raise for a label of [row.index]. *)
Lemma series_get_index (row : Series) (sub : string) :
  sub ∈ index row → ∃ v, series_get row sub = Ok v.
Proof.
  intros Hin. apply list_elem_of_fmap in Hin as (kv & -> & Hkv).
  unfold series_get.
  destruct (list_find_elem_of (λ kv', kv'.1 = kv.1) row kv Hkv eq_refl)
    as [[i kv'] ->].
  by eexists.
Qed.

(** With distinct labels, [row[k]] is the value the row pairs with [k]. *)
Lemma series_get_NoDup (row : Series) (k : string) (v : Cell) :
  NoDup (index row) → (k, v) ∈ row → series_get row k = Ok v.
Proof.
  intros Hnd Hin. unfold series_get.
  destruct (list_find_elem_of (λ kv', kv'.1 = k) row (k, v) Hin eq_refl)
    as [[i [k' v']] Hf].
  rewrite Hf. apply list_find_Some in Hf as (Hi & Hk & _). simpl in *. subst k'.
  apply list_elem_of_lookup in Hin as [j Hj].
  assert (i = j) as <-.
  { eapply NoDup_lookup; [exact Hnd | |]; unfold index;
      rewrite list_lookup_fmap; [by rewrite Hi | by rewrite Hj]. }
  by simplify_eq.
Qed.

Lemma total_score_loop (row fields : Series) (acc : Z) :
  (∀ kv, kv ∈ fields → series_get row kv.1 = Ok kv.2) →
  for_each
    (λ sub acc, let* v := series_get row sub in
                Ok (acc + default 0 (GRADE_TO_SCORE !! py_str v)))
    (filter (λ sub, sub ∉ ["Student ID"; "Name"]) (index fields)) acc
  = Ok (acc + grade_sum (subject_fields fields)).
Proof.
  revert acc. induction fields as [|kv l IH]; intros acc Hget.
  - simpl. f_equal. lia.
  - unfold index, subject_fields in *. rewrite fmap_cons.
    assert (∀ kv', kv' ∈ l → series_get row kv'.1 = Ok kv'.2) as Hl.
    { intros kv' Hkv'. apply Hget. by right. }
    destruct (decide (kv.1 ∉ ["Student ID"; "Name"])) as [Hs|Hs].
    + rewrite (filter_cons_True (λ sub : string, _)) by done.
      rewrite (filter_cons_True (λ kv' : string * Cell, _)) by done. simpl.
      rewrite (Hget kv) by left. simpl.
      rewrite IH by done. rewrite grade_lookup. f_equal.
      unfold grade_sum. simpl. by rewrite Z.add_assoc.
    + rewrite (filter_cons_False (λ sub : string, _)) by done.
      rewrite (filter_cons_False (λ kv' : string * Cell, _)) by done.
      by apply IH.
Qed.

Lemma total_score_returns (row : Series) :
  ∃ z, total_score row = Ok z ∧ 0 ≤ z.
Proof.
  unfold total_score.
  assert (∀ subs acc, (∀ sub, sub ∈ subs → sub ∈ index row) → 0 ≤ acc →
    ∃ z, for_each
      (λ sub acc, let* v := series_get row sub in
                  Ok (acc + default 0 (GRADE_TO_SCORE !! py_str v))) subs acc
      = Ok z ∧ 0 ≤ z) as Hloop.
  { induction subs as [|sub subs IH]; intros acc Hsub Hacc; simpl.
    - by exists acc.
    - destruct (series_get_index row sub) as [v ->]; [apply Hsub; by left|].
      simpl. apply IH.
      + intros sub' ?. apply Hsub. by right.
      + rewrite grade_lookup. pose proof (grade_points_nonneg (py_str v)). lia. }
  apply Hloop; [|lia].
  intros sub Hsub. by apply list_elem_of_filter in Hsub as [_ ?].
Qed.

(** ** Overrides *)

Lemma find_override_lookup (table : gmap string Override) (student_id : string)
    (entry : Override) :
  table !! student_id = Some entry →
  find_override (Some table) student_id = Some entry.
Proof.
  intros Hl. unfold find_override.
  rewrite bool_decide_eq_false_2; [done|].
  by eapply map_size_ne_0_lookup_2.
Qed.

(** The decision of one iteration: a row whose identifier has an entry in
    the override table gets exactly the entry's university and course with
    the reasoning "Manual override applied", whatever the catalog and
    whatever the other fields of the row. *)
Lemma override_applied (universities : list University)
    (table : gmap string Override) (row : Series) (id : Cell) (entry : Override) :
  series_get row "Student ID" = Ok id →
  table !! py_str id = Some entry →
  allocate_row universities (Some table) row
  = Ok (university entry, course entry, "Manual override applied").
Proof.
  intros Hid Hentry. unfold allocate_row. rewrite Hid. cbn [rbind].
  by rewrite (find_override_lookup _ _ _ Hentry).
Qed.

Lemma override_applied_witness :
  allocate_row catalog_open_course override_42
    [("Student ID", CInt 42); ("Name", CStr "Bob"); ("Math", CStr "A")]
  = Ok ("UniC", "CourseZ", "Manual override applied").
Proof.
  apply (override_applied catalog_open_course
           {[ "42" := mkOverride "UniC" "CourseZ" ]}
           _ (CInt 42) (mkOverride "UniC" "CourseZ")).
  - reflexivity.
  - vm_compute. reflexivity.
Defined.

(** ** Best fit: no candidate *)

Lemma elem_of_all_courses (universities : list University) (c : Course) :
  c ∈ all_courses universities ↔ ∃ u, u ∈ universities ∧ c ∈ courses u.
Proof.
  unfold all_courses. rewrite list_elem_of_bind.
  split; intros (u & ? & ?); by exists u.
Qed.

Lemma entries_courses (universities : list University) :
  (entries universities).*2 = all_courses universities.
Proof.
  unfold entries, all_courses.
  induction universities as [|u us IH]; [done|].
  csimpl. rewrite fmap_app, IH. f_equal.
  rewrite <-list_fmap_compose. apply list_fmap_id.
Qed.

Lemma no_candidate_loop (universities : list University) (total : Z)
    (es : list (string * Course)) (b : Best) :
  (∀ e, e ∈ es → total < get_min_score e.2) →
  for_each (λ e, consider_course universities total e.1 e.2) es b = Ok b.
Proof.
  induction es as [|e es IH]; intros Hlt; [done|]. simpl.
  unfold consider_course at 1.
  rewrite bool_decide_eq_false_2.
  - simpl. apply IH. intros e' ?. apply Hlt. by right.
  - pose proof (Hlt e ltac:(left)). lia.
Qed.

Lemma best_fit_no_candidate (row : Series) (universities : list University)
    (total : Z) :
  (∀ c, c ∈ all_courses universities → total < get_min_score c) →
  best_fit_allocation row universities total = Ok no_course.
Proof.
  intros Hlt. unfold best_fit_allocation. rewrite best_fit_as_entries.
  apply no_candidate_loop. intros e He. apply Hlt.
  rewrite <-entries_courses. by apply list_elem_of_fmap_2.
Qed.

(** C4: for a student without an override whose score is below the minimum
    score of every course of the catalog, and so for every such student when
    the catalog is empty, the decision is the value ("", "", "No suitable
    course found"), not an exception. *)
Theorem no_suitable_course (universities : list University)
    (overrides : option (gmap string Override)) (row : Series) (id : Cell) :
  series_get row "Student ID" = Ok id →
  find_override overrides (py_str id) = None →
  ((∀ total c, total_score row = Ok total → c ∈ all_courses universities →
               total < get_min_score c) →
   allocate_row universities overrides row
   = Ok ("", "", "No suitable course found")) ∧
  allocate_row [] overrides row = Ok ("", "", "No suitable course found").
Proof.
  intros Hid Hov.
  assert (∀ us, (∀ total c, total_score row = Ok total → c ∈ all_courses us →
                            total < get_min_score c) →
    allocate_row us overrides row = Ok no_course) as Hgen.
  { intros us Hlt. unfold allocate_row. rewrite Hid. cbn [rbind]. rewrite Hov.
    destruct (total_score_returns row) as (total & Htotal & _).
    rewrite Htotal. cbn [rbind]. apply best_fit_no_candidate.
    intros c Hc. by apply Hlt. }
  split; [apply Hgen|].
  apply Hgen. intros total c _ Hc. by apply elem_of_nil in Hc.
Qed.

Lemma no_suitable_course_witness :
  allocate_row
    [mkUniversity "UniA" [mkCourse "CourseX" (Some 5); mkCourse "CourseW" (Some 5)]]
    None [("Student ID", CStr "S3"); ("Name", CStr "Cy"); ("Math", CStr "C")]
  = Ok ("", "", "No suitable course found").
Proof.
  refine (proj1 (no_suitable_course _ None _ (CStr "S3") _ _) _).
  - reflexivity.
  - reflexivity.
  - intros total c Htotal Hc. vm_compute in Htotal.
    injection Htotal as <-.
    apply elem_of_all_courses in Hc as (u & Hu & Hc).
    apply list_elem_of_singleton in Hu as ->. simpl in Hc.
    apply elem_of_cons in Hc as [-> | Hc]; [reflexivity|].
    apply list_elem_of_singleton in Hc as ->. reflexivity.
Defined.

(** ** Best fit: what a decision can be *)

Lemma consider_course_placement (universities : list University) (total : Z)
    (e : string * Course) (b b' : Best) :
  e ∈ entries universities →
  b = no_course ∨ placement universities total b →
  consider_course universities total e.1 e.2 b = Ok b' →
  b' = no_course ∨ placement universities total b'.
Proof.
  intros He Hb. unfold consider_course.
  case_bool_decide as Hmin; [|by intros [= <-]].
  assert (placement universities total
            (e.1, name e.2, meets_minimum total (get_min_score e.2))) as Hnew.
  { apply elem_of_entries in He as (u & Hu & Hc & ->).
    exists u, e.2. by repeat split. }
  case_bool_decide as Hempty; cbn [rbind].
  - intros [= <-]. by right.
  - destruct (min_score_by_name universities b.1.2) as [m|]; cbn [rbind]; [|done].
    case_bool_decide; intros [= <-]; [by right | done].
Qed.

Lemma best_fit_result (row : Series) (universities : list University)
    (total : Z) (r : Best) :
  best_fit_allocation row universities total = Ok r →
  r = no_course ∨ placement universities total r.
Proof.
  unfold best_fit_allocation. rewrite best_fit_as_entries.
  apply (for_each_invariant
           (λ b, b = no_course ∨ placement universities total b)).
  - intros e b b' He Hb. by apply consider_course_placement.
  - by left.
Qed.

(** C6: whenever a student without an override is matched to a course, the
    course is one of the catalog that the student's score reaches, and the
    reasoning is the sentence "Total score <score> meets minimum <min>" with
    the student's score and that course's minimum score; for the grades
    Math A and Eng B the score is 9 and, with CourseX (minimum 5) at UniA and
    CourseY (minimum 9) at UniB, the decision is UniB, CourseY with the
    reasoning "Total score 9 meets minimum 9". *)
Theorem reasoning_embeds_score_and_minimum :
  (∀ (universities : list University)
     (overrides : option (gmap string Override)) (row : Series) (id : Cell)
     (r : Best),
     series_get row "Student ID" = Ok id →
     find_override overrides (py_str id) = None →
     allocate_row universities overrides row = Ok r →
     r ≠ ("", "", "No suitable course found") →
     ∃ total u c,
       total_score row = Ok total ∧
       u ∈ universities ∧ c ∈ courses u ∧ get_min_score c ≤ total ∧
       r = (uni_name u, name c,
            "Total score " +:+ pretty total +:+ " meets minimum "
              +:+ pretty (get_min_score c))) ∧
  total_score student_ab = Ok 9 ∧
  allocate_row catalog_xy None student_ab
  = Ok ("UniB", "CourseY", "Total score 9 meets minimum 9").
Proof.
  split; [|split; reflexivity].
  intros universities overrides row id r Hid Hov Hr Hmatched.
  unfold allocate_row in Hr. rewrite Hid in Hr. cbn [rbind] in Hr.
  rewrite Hov in Hr.
  destruct (total_score row) as [total|] eqn:Htotal; cbn [rbind] in Hr; [|done].
  apply best_fit_result in Hr as [-> | (u & c & Hu & Hc & Hmin & ->)]; [done|].
  by exists total, u, c.
Qed.

Lemma reasoning_embeds_score_and_minimum_witness :
  ∃ total u c,
    total_score student_ab = Ok total ∧
    u ∈ catalog_xy ∧ c ∈ courses u ∧ get_min_score c ≤ total ∧
    ("UniB", "CourseY", "Total score 9 meets minimum 9")
    = (uni_name u, name c,
       "Total score " +:+ pretty total +:+ " meets minimum "
         +:+ pretty (get_min_score c)).
Proof.
  apply (proj1 reasoning_embeds_score_and_minimum catalog_xy None student_ab
           (CStr "S1")).
  - reflexivity.
  - reflexivity.
  - vm_compute. reflexivity.
  - discriminate.
Defined.

(** ** Tables: columns, cells and writes *)

Lemma col_pos_Some (label : string) (cols : list string) (j : nat) :
  col_pos label cols = Some j → cols !! j = Some label.
Proof.
  unfold col_pos. intros Hf. apply fmap_Some in Hf as ([j' c] & Hf & ->).
  apply list_find_Some in Hf as (Hj & -> & _). done.
Qed.

Lemma col_pos_None (label : string) (cols : list string) :
  col_pos label cols = None ↔ label ∉ cols.
Proof.
  unfold col_pos. rewrite fmap_None, list_find_None, Forall_forall.
  split.
  - intros Hall Hin. by apply (Hall label).
  - intros Hnin c Hc ->. done.
Qed.

Lemma col_pos_is_Some (label : string) (cols : list string) :
  is_Some (col_pos label cols) ↔ label ∈ cols.
Proof.
  rewrite <-not_eq_None_Some, col_pos_None.
  split; [apply dec_stable | by intros ? ?].
Qed.

Lemma col_pos_snoc (c label : string) (cols : list string) :
  col_pos c (cols ++ [label])
  = match col_pos c cols with
    | Some j => Some j
    | None => if decide (c = label) then Some (length cols) else None
    end.
Proof.
  unfold col_pos.
  destruct (list_find (λ x, x = c) cols) as [[j x]|] eqn:Hf.
  - by rewrite (list_find_app_l _ _ _ _ _ Hf).
  - rewrite list_find_app_r by done. simpl.
    destruct (decide (c = label)) as [->|Hne]; simpl.
    + rewrite decide_True by done. done.
    + rewrite decide_False by done. done.
Qed.

Lemma set_column_well_formed (label : string) (v : Cell) (df : DataFrame) :
  well_formed df → well_formed (set_column label v df).
Proof.
  intros [Hnd Hlen]. unfold set_column.
  destruct (col_pos label (columns df)) as [j|] eqn:Hj; split; simpl.
  - done.
  - apply Forall_fmap. eapply Forall_impl; [exact Hlen|].
    intros r Hr. simpl. by rewrite length_insert.
  - apply NoDup_app. split_and!; [done | | apply NoDup_singleton].
    intros c Hc ->%list_elem_of_singleton. by apply col_pos_None in Hj.
  - apply Forall_fmap. eapply Forall_impl; [exact Hlen|].
    intros r Hr. simpl. rewrite !length_app, Hr. done.
Qed.

Lemma blank_result_columns_well_formed (df : DataFrame) :
  well_formed df → well_formed (blank_result_columns df).
Proof. intros. unfold blank_result_columns. by do 3 apply set_column_well_formed. Qed.

Lemma length_rows_set_column (label : string) (v : Cell) (df : DataFrame) :
  length (rows (set_column label v df)) = length (rows df).
Proof.
  unfold set_column. destruct (col_pos _ _); simpl; by rewrite length_fmap.
Qed.

(** The cells of a frame after [df[label] = v]. *)
Lemma cell_set_column (label : string) (v : Cell) (df : DataFrame)
    (i : nat) (c : string) :
  well_formed df →
  cell (set_column label v df) i c
  = if decide (c = label)
    then (if decide (i < length (rows df))%nat then Some v else None)
    else cell df i c.
Proof.
  intros [_ Hlen]. unfold cell, set_column.
  destruct (col_pos label (columns df)) as [j|] eqn:Hj; simpl.
  - rewrite list_lookup_fmap.
    destruct (rows df !! i) as [r|] eqn:Hr; simpl.
    + assert (length r = length (columns df)) as Hlr.
      { eapply (Forall_lookup_1 _ _ _ _ Hlen Hr). }
      destruct (decide (c = label)) as [->|Hne].
      * rewrite Hj. simpl.
        rewrite decide_True by (by eapply lookup_lt_Some).
        apply list_lookup_insert_eq. rewrite Hlr.
        eapply lookup_lt_Some. by apply col_pos_Some.
      * destruct (col_pos c (columns df)) as [j'|] eqn:Hj'; simpl; [|done].
        apply list_lookup_insert_ne. intros ->.
        apply col_pos_Some in Hj, Hj'. congruence.
    + destruct (decide (c = label)); [|done].
      rewrite decide_False; [done|]. by apply Nat.nlt_ge, lookup_ge_None.
  - rewrite list_lookup_fmap.
    destruct (rows df !! i) as [r|] eqn:Hr; simpl.
    + assert (length r = length (columns df)) as Hlr.
      { eapply (Forall_lookup_1 _ _ _ _ Hlen Hr). }
      rewrite col_pos_snoc.
      destruct (decide (c = label)) as [->|Hne].
      * rewrite Hj. simpl.
        rewrite decide_True by (by eapply lookup_lt_Some).
        rewrite <-Hlr. apply list_lookup_middle. done.
      * destruct (col_pos c (columns df)) as [j'|] eqn:Hj'; simpl; [|done].
        apply lookup_app_l. rewrite Hlr.
        eapply lookup_lt_Some. by apply col_pos_Some.
    + destruct (decide (c = label)); [|done].
      rewrite decide_False; [done|]. by apply Nat.nlt_ge, lookup_ge_None.
Qed.

Lemma columns_set_at (idx : nat) (label : string) (v : Cell) (df : DataFrame) :
  columns (set_at idx label v df) = columns df.
Proof. unfold set_at. by destruct (col_pos _ _). Qed.

Lemma length_rows_set_at (idx : nat) (label : string) (v : Cell) (df : DataFrame) :
  length (rows (set_at idx label v df)) = length (rows df).
Proof.
  unfold set_at. destruct (col_pos _ _); simpl; [apply length_alter | done].
Qed.

(** The cells of a frame after [df.at[idx, label] = v]. *)
Lemma cell_set_at (idx : nat) (label : string) (v : Cell) (df : DataFrame)
    (i : nat) (c : string) :
  cell (set_at idx label v df) i c
  = if decide (i = idx ∧ c = label)
    then match cell df i c with Some _ => Some v | None => None end
    else cell df i c.
Proof.
  unfold cell, set_at.
  destruct (col_pos label (columns df)) as [j|] eqn:Hj; simpl.
  - rewrite list_lookup_alter.
    destruct (decide (idx = i)) as [->|Hi].
    + destruct (rows df !! i) as [r|] eqn:Hr; simpl.
      * destruct (decide (c = label)) as [->|Hne].
        -- rewrite decide_True by done. rewrite Hj. simpl.
           destruct (r !! j) as [x|] eqn:Hx.
           ++ apply list_lookup_insert_eq. by eapply lookup_lt_Some.
           ++ rewrite list_insert_ge; [done|]. by apply lookup_ge_None.
        -- rewrite decide_False by (intros [_ ?]; done).
           destruct (col_pos c (columns df)) as [j'|] eqn:Hj'; simpl; [|done].
           apply list_lookup_insert_ne. intros ->.
           apply col_pos_Some in Hj, Hj'. congruence.
      * by destruct (decide _).
    + rewrite decide_False by (intros [? _]; done). done.
  - destruct (decide (i = idx ∧ c = label)) as [[-> ->]|]; [|done].
    rewrite Hj. by destruct (rows df !! idx).
Qed.

Lemma columns_write_result (idx : nat) (r : Best) (df : DataFrame) :
  columns (write_result idx r df) = columns df.
Proof. unfold write_result. by rewrite !columns_set_at. Qed.

Lemma length_rows_write_result (idx : nat) (r : Best) (df : DataFrame) :
  length (rows (write_result idx r df)) = length (rows df).
Proof. unfold write_result. by rewrite !length_rows_set_at. Qed.

(** An iteration writes only in its own row and only in the three result
    columns. *)
Lemma cell_write_result_frame (idx : nat) (r : Best) (df : DataFrame)
    (i : nat) (c : string) :
  i ≠ idx ∨ c ∉ result_columns →
  cell (write_result idx r df) i c = cell df i c.
Proof.
  intros Hframe. unfold write_result. rewrite !cell_set_at.
  repeat (rewrite decide_False; [|]); [done|..];
    intros [-> ->]; destruct Hframe as [?|Hc]; try done;
    apply Hc; in_literal.
Qed.

(** In its own row an iteration leaves its decision in the three result
    columns. *)
Lemma cell_write_result_own (idx : nat) (r : Best) (df : DataFrame) :
  is_Some (cell df idx "Allocated University") →
  is_Some (cell df idx "Allocated Course") →
  is_Some (cell df idx "Reasoning") →
  cell (write_result idx r df) idx "Allocated University" = Some (CStr r.1.1) ∧
  cell (write_result idx r df) idx "Allocated Course" = Some (CStr r.1.2) ∧
  cell (write_result idx r df) idx "Reasoning" = Some (CStr r.2).
Proof.
  intros [u Hu] [c Hc] [x Hx]. unfold write_result. rewrite !cell_set_at.
  repeat (first [ rewrite decide_True by done
                | rewrite decide_False by (intros [_ ?]; done) ]).
  by rewrite Hu, Hc, Hx.
Qed.

Lemma cell_write_result_is_Some (idx : nat) (r : Best) (df : DataFrame)
    (i : nat) (c : string) :
  is_Some (cell df i c) → is_Some (cell (write_result idx r df) i c).
Proof.
  intros [x Hx]. unfold write_result. rewrite !cell_set_at.
  repeat case_decide; rewrite ?Hx; eauto.
Qed.

(** ** The rows the loop visits *)

Lemma iterrows_lookup (df : DataFrame) (i : nat) :
  iterrows df !! i = (λ r, (i, zip (columns df) r)) <$> rows df !! i.
Proof. unfold iterrows. apply list_lookup_imap. Qed.

Lemma elem_of_iterrows (df : DataFrame) (i : nat) (row : Series) :
  (i, row) ∈ iterrows df
  ↔ ∃ r, rows df !! i = Some r ∧ row = zip (columns df) r.
Proof.
  rewrite list_elem_of_lookup. split.
  - intros [j Hj]. rewrite iterrows_lookup in Hj.
    apply fmap_Some in Hj as (r & Hr & [= -> ->]). by exists r.
  - intros (r & Hr & ->). exists i. by rewrite iterrows_lookup, Hr.
Qed.

Lemma iterrows_indices (df : DataFrame) : NoDup (iterrows df).*1.
Proof.
  apply NoDup_alt. intros i j x Hi Hj.
  rewrite list_lookup_fmap, iterrows_lookup in Hi, Hj.
  destruct (rows df !! i); destruct (rows df !! j); simplify_eq/=. done.
Qed.

Lemma iterrows_index (df : DataFrame) (i : nat) (row : Series) :
  well_formed df → (i, row) ∈ iterrows df → index row = columns df.
Proof.
  intros [_ Hlen] (r & Hr & ->)%elem_of_iterrows.
  unfold index. apply fst_zip.
  by rewrite (Forall_lookup_1 _ _ _ _ Hlen Hr).
Qed.

(** [row[label]] on the row of a frame is the frame's cell. *)
Lemma series_get_zip (cols : list string) (r : list Cell) (label : string) :
  length r = length cols →
  series_get (zip cols r) label
  = match col_pos label cols ≫= (r !!.) with
    | Some v => Ok v
    | None => Raise (KeyError label)
    end.
Proof.
  unfold series_get, col_pos. revert r.
  induction cols as [|c cols IH]; intros [|v r] Hlen; simplify_eq/=; [done|].
  case_decide as Hc; [done|].
  specialize (IH r ltac:(done)).
  destruct (list_find (λ kv, kv.1 = label) (zip cols r)) as [[i kv]|];
    destruct (list_find (λ c0, c0 = label) cols) as [[j c']|]; simpl in *; done.
Qed.

Lemma iterrows_series_get (df : DataFrame) (i : nat) (row : Series)
    (label : string) :
  well_formed df → iterrows df !! i = Some (i, row) →
  series_get row label
  = match cell df i label with
    | Some v => Ok v
    | None => Raise (KeyError label)
    end.
Proof.
  intros [_ Hlen] Hrow. rewrite iterrows_lookup in Hrow.
  apply fmap_Some in Hrow as (r & Hr & [= ->]).
  rewrite series_get_zip by (by rewrite (Forall_lookup_1 _ _ _ _ Hlen Hr)).
  unfold cell. rewrite Hr. simpl.
  by destruct (col_pos label (columns df)).
Qed.

(** ** When the decision procedure returns *)

Lemma for_each_returns {A S : Type} (body : A → S → Result S) (xs : list A) (s : S) :
  (∀ x t, x ∈ xs → ∃ t', body x t = Ok t') → ∃ s', for_each body xs s = Ok s'.
Proof.
  revert s. induction xs as [|x xs IH]; intros s Hbody; simpl; [by eexists|].
  destruct (Hbody x s) as [t ->]; [by left|]. cbn [rbind].
  apply IH. intros y u Hy. apply Hbody. by right.
Qed.

Lemma min_score_by_name_returns (universities : list University) (n : string) :
  thresholds_present universities → ∃ m, min_score_by_name universities n = Ok m.
Proof.
  unfold thresholds_present. rewrite Forall_forall.
  intros Hpresent. unfold min_score_by_name.
  destruct (list_find _ _) as [[i c]|] eqn:Hf; [|by eexists].
  apply list_find_Some in Hf as (Hc%list_elem_of_lookup_2 & _).
  destruct (Hpresent c Hc) as [m Hm]. unfold index_min_score. rewrite Hm.
  by eexists.
Qed.

Lemma best_fit_returns (row : Series) (universities : list University)
    (total : Z) :
  thresholds_present universities →
  ∃ r, best_fit_allocation row universities total = Ok r.
Proof.
  intros Hpresent. unfold best_fit_allocation. rewrite best_fit_as_entries.
  apply for_each_returns. intros e b _. unfold consider_course.
  case_bool_decide; [|by eexists].
  case_bool_decide; cbn [rbind]; [by eexists|].
  destruct (min_score_by_name_returns universities b.1.2 Hpresent) as [m ->].
  cbn [rbind]. case_bool_decide; by eexists.
Qed.

Lemma allocate_row_returns (universities : list University)
    (overrides : option (gmap string Override)) (row : Series) :
  "Student ID" ∈ index row → thresholds_present universities →
  ∃ r, allocate_row universities overrides row = Ok r.
Proof.
  intros Hid Hpresent. unfold allocate_row.
  destruct (series_get_index row _ Hid) as [id ->]. cbn [rbind].
  destruct (find_override _ _); [by eexists|].
  destruct (total_score_returns row) as (total & -> & _). cbn [rbind].
  by apply best_fit_returns.
Qed.

(** ** The loop of [allocate] *)

Lemma allocate_loop (universities : list University)
    (overrides : option (gmap string Override)) (irs : list (nat * Series))
    (cur out : DataFrame) :
  for_each (allocate_step universities overrides) irs cur = Ok out →
  columns out = columns cur ∧
  length (rows out) = length (rows cur) ∧
  (∀ i c, i ∉ irs.*1 ∨ c ∉ result_columns → cell out i c = cell cur i c) ∧
  (∀ i c, is_Some (cell cur i c) → is_Some (cell out i c)) ∧
  (NoDup irs.*1 → ∀ i row, (i, row) ∈ irs →
     (∀ c, c ∈ result_columns → is_Some (cell cur i c)) →
     ∃ r, allocate_row universities overrides row = Ok r ∧
          holds_decision out i r).
Proof.
  revert cur. induction irs as [|[idx row0] irs IH]; intros cur; simpl.
  - intros [= <-]. split_and!; try done. intros _ i row Hin. by apply elem_of_nil in Hin.
  - unfold allocate_step at 1. simpl.
    destruct (allocate_row universities overrides row0) as [r0|] eqn:Hr0;
      cbn [rbind]; [|done].
    intros Hout. apply IH in Hout as (Hcols & Hlen & Hframe & Hsome & Hown).
    split_and!.
    + by rewrite Hcols, columns_write_result.
    + by rewrite Hlen, length_rows_write_result.
    + intros i c Hic. rewrite Hframe, cell_write_result_frame; [done|..].
      * destruct Hic as [Hi|Hc]; [left|by right]. intros ->. apply Hi. by left.
      * destruct Hic as [Hi|Hc]; [left|by right]. intros Hi'. apply Hi. by right.
    + intros i c Hic. by apply Hsome, cell_write_result_is_Some.
    + intros Hnd i row Hin Hcells. apply NoDup_cons in Hnd as [Hidx Hnd].
      apply elem_of_cons in Hin as [[= -> ->] | Hin].
      * exists r0. split; [done|].
        destruct (cell_write_result_own idx r0 cur) as (Hu & Hc & Hx);
          [apply Hcells; in_literal..|].
        unfold holds_decision. rewrite !Hframe by (by left). done.
      * apply (Hown Hnd i row Hin).
        intros c Hc. by apply cell_write_result_is_Some, Hcells.
Qed.

(** ** The frame [allocate] returns *)

Lemma columns_set_column (label : string) (v : Cell) (df : DataFrame) :
  columns (set_column label v df)
  = if decide (label ∈ columns df) then columns df else columns df ++ [label].
Proof.
  unfold set_column. destruct (col_pos label (columns df)) as [j|] eqn:Hj.
  - rewrite decide_True; [done|]. apply col_pos_is_Some. by eexists.
  - rewrite decide_False; [done|]. by apply col_pos_None.
Qed.

Lemma columns_blank_result_columns (df : DataFrame) :
  columns (blank_result_columns df)
  = columns df ++ filter (λ c, c ∉ columns df) result_columns.
Proof.
  unfold blank_result_columns, result_columns.
  rewrite !columns_set_column.
  repeat (rewrite filter_cons; simpl). rewrite filter_nil.
  repeat case_decide;
    repeat match goal with
    | H : context [_ ∈ _ ++ _] |- _ => rewrite elem_of_app in H
    | H : context [_ ∈ _ :: _] |- _ => rewrite elem_of_cons in H
    | H : context [_ ∈ []] |- _ => rewrite elem_of_nil in H
    end;
    try (exfalso; intuition congruence);
    by rewrite <-?app_assoc, ?app_nil_r.
Qed.

Lemma cell_blank_result_columns (df : DataFrame) (i : nat) (c : string) :
  well_formed df →
  cell (blank_result_columns df) i c
  = if decide (c ∈ result_columns)
    then (if decide (i < length (rows df))%nat then Some (CStr "") else None)
    else cell df i c.
Proof.
  intros Hwf. unfold blank_result_columns.
  rewrite !cell_set_column by (by repeat apply set_column_well_formed).
  rewrite !length_rows_set_column. unfold result_columns.
  repeat case_decide; subst; try done;
    match goal with
    | H : ¬ (_ ∈ _) |- _ => exfalso; apply H; in_literal
    | H : _ ∈ _ |- _ =>
        repeat (apply elem_of_cons in H as [H|H]; [done|]);
        by apply elem_of_nil in H
    end.
Qed.

Lemma allocate_frame_returns (df : DataFrame) (universities : list University)
    (overrides : option (gmap string Override)) :
  well_formed df → "Student ID" ∈ columns df → thresholds_present universities →
  ∃ out, allocate_frame df universities overrides = Ok out.
Proof.
  intros Hwf Hid Hpresent. unfold allocate_frame.
  apply for_each_returns. intros [i row] cur Hrow. unfold allocate_step. simpl.
  destruct (allocate_row_returns universities overrides row) as [r ->];
    [|done|by eexists].
  rewrite (iterrows_index (blank_result_columns df) i) by
    (by try apply blank_result_columns_well_formed).
  rewrite columns_blank_result_columns. apply elem_of_app. by left.
Qed.

Lemma allocate_frame_returned (df out : DataFrame)
    (universities : list University)
    (overrides : option (gmap string Override)) :
  well_formed df →
  allocate_frame df universities overrides = Ok out →
  columns out = columns df ++ filter (λ c, c ∉ columns df) result_columns ∧
  length (rows out) = length (rows df) ∧
  (∀ i c, c ∉ result_columns → cell out i c = cell df i c) ∧
  (∀ i, (i < length (rows df))%nat →
     ∃ row r, iterrows (blank_result_columns df) !! i = Some (i, row) ∧
              (∀ c v, c ∉ result_columns → cell df i c = Some v →
                      series_get row c = Ok v) ∧
              allocate_row universities overrides row = Ok r ∧
              holds_decision out i r).
Proof.
  intros Hwf Hout. unfold allocate_frame in Hout.
  apply allocate_loop in Hout as (Hcols & Hlen & Hframe & _ & Hown).
  assert (length (rows (blank_result_columns df)) = length (rows df)) as Hrows.
  { unfold blank_result_columns. by rewrite !length_rows_set_column. }
  split_and!.
  - by rewrite Hcols, columns_blank_result_columns.
  - by rewrite Hlen.
  - intros i c Hc. rewrite Hframe by (by right).
    rewrite cell_blank_result_columns by done. by rewrite decide_False.
  - intros i Hi.
    destruct (lookup_lt_is_Some_2 (rows (blank_result_columns df)) i)
      as [cells Hcells]; [by rewrite Hrows|].
    exists (zip (columns (blank_result_columns df)) cells).
    destruct (Hown (iterrows_indices _) i
                (zip (columns (blank_result_columns df)) cells))
      as (r & Hr & Hd).
    + apply elem_of_iterrows. by exists cells.
    + intros c Hc. rewrite cell_blank_result_columns by done.
      rewrite !decide_True by done. by eexists.
    + assert (iterrows (blank_result_columns df) !! i
              = Some (i, zip (columns (blank_result_columns df)) cells))
        as Hrow by (by rewrite iterrows_lookup, Hcells).
      exists r. split_and!; [done| |done..].
      intros c v Hc Hv.
      rewrite (iterrows_series_get _ _ _ _
                 (blank_result_columns_well_formed _ Hwf) Hrow).
      rewrite cell_blank_result_columns by done.
      by rewrite decide_False, Hv.
Qed.

(** ** Files *)

Lemma allocate_reads (excel_path uni_json_path : string)
    (overrides : option (gmap string Override)) (w : World) (df : DataFrame)
    (universities : list University) :
  excel_files w !! excel_path = Some df →
  json_files w !! uni_json_path = Some universities →
  allocate excel_path uni_json_path overrides w
  = (allocate_frame df universities overrides, w).
Proof.
  intros Hdf Hcat. unfold allocate, io_bind, read_excel, json_load, io_lift.
  by rewrite Hdf, Hcat.
Qed.


(** ** The table of allocations *)

(** The rows the loop of [allocate] visits have distinct labels. *)
Lemma loop_row_labels (df : DataFrame) (i : nat) (row : Series) :
  well_formed df → iterrows (blank_result_columns df) !! i = Some (i, row) →
  NoDup (index row).
Proof.
  intros Hwf Hrow.
  pose proof (blank_result_columns_well_formed df Hwf) as Hwf'.
  rewrite (iterrows_index (blank_result_columns df) i row Hwf').
  - by destruct Hwf'.
  - by eapply list_elem_of_lookup_2.
Qed.




(** X16: [allocate] returns a table whenever the roster has a "Student ID"
    column and every course of the catalog carries a minimum score, and a
    table it returns has one row per row of the roster, in the roster's
    order: row [i] keeps the identifier of the roster's row [i] and carries,
    in the three result columns, the one decision taken for that row, a row
    that reads as the roster's row [i] outside the result columns. *)
Theorem one_result_per_student (excel_path uni_json_path : string)
    (overrides : option (gmap string Override)) (w : World) (df : DataFrame)
    (universities : list University) :
  excel_files w !! excel_path = Some df →
  json_files w !! uni_json_path = Some universities →
  well_formed df →
  ("Student ID" ∈ columns df → thresholds_present universities →
   ∃ out, (allocate excel_path uni_json_path overrides w).1 = Ok out) ∧
  (∀ out, (allocate excel_path uni_json_path overrides w).1 = Ok out →
     length (rows out) = length (rows df) ∧
     ∀ i, (i < length (rows df))%nat →
       cell out i "Student ID" = cell df i "Student ID" ∧
       ∃ row r,
         iterrows (blank_result_columns df) !! i = Some (i, row) ∧
         (∀ c v, c ∉ result_columns → cell df i c = Some v →
                 series_get row c = Ok v) ∧
         allocate_row universities overrides row = Ok r ∧
         holds_decision out i r).
Proof.
  intros Hdf Hcat Hwf.
  rewrite (allocate_reads _ _ _ _ _ _ Hdf Hcat). simpl. split.
  - intros Hid Hpresent. by apply allocate_frame_returns.
  - intros out Hout.
    apply allocate_frame_returned in Hout as (_ & Hlen & Hframe & Hown); [|done].
    split; [done|]. intros i Hi. split; [|by apply Hown].
    apply Hframe. unfold result_columns.
    rewrite !elem_of_cons, elem_of_nil. intuition congruence.
Qed.

Lemma one_result_per_student_witness :
  ∃ out, (allocate "roster.xlsx" "universities.json" override_42
            (world_cd catalog_xy)).1
         = Ok out.
Proof.
  refine (proj1 (one_result_per_student "roster.xlsx" "universities.json"
                   override_42 (world_cd catalog_xy) roster_cd catalog_xy
                   _ _ _) _ _).
  - vm_compute. reflexivity.
  - vm_compute. reflexivity.
  - refine (bool_decide_unpack _ _). vm_compute. exact I.
  - refine (bool_decide_unpack _ _). vm_compute. exact I.
  - refine (bool_decide_unpack _ _). vm_compute. exact I.
Defined.

(** C10, amended: in a table [allocate] returns, the columns are the roster's
    columns in their order, followed by those of "Allocated University",
    "Allocated Course" and "Reasoning" the roster did not have; the rows are
    as many as the roster's; and every cell outside the columns of those
    three names, so every identifier, every name and every grade of a subject
    of another name, is the cell of the same row and column of the roster. *)
Theorem only_result_columns_written (excel_path uni_json_path : string)
    (overrides : option (gmap string Override)) (w : World)
    (df out : DataFrame) :
  excel_files w !! excel_path = Some df →
  well_formed df →
  (allocate excel_path uni_json_path overrides w).1 = Ok out →
  columns out = columns df ++ filter (λ c, c ∉ columns df) result_columns ∧
  length (rows out) = length (rows df) ∧
  (∀ i c, c ∉ result_columns → cell out i c = cell df i c) ∧
  (∀ i, cell out i "Student ID" = cell df i "Student ID" ∧
        cell out i "Name" = cell df i "Name").
Proof.
  intros Hdf Hwf Hout.
  destruct (json_files w !! uni_json_path) as [universities|] eqn:Hcat.
  - rewrite (allocate_reads _ _ _ _ _ _ Hdf Hcat) in Hout. simpl in Hout.
    apply allocate_frame_returned in Hout as (Hcols & Hlen & Hframe & _); [|done].
    split_and!; [done..|].
    intros i. split; apply Hframe; unfold result_columns;
      rewrite !elem_of_cons, elem_of_nil; intuition congruence.
  - unfold allocate, io_bind, read_excel, json_load in Hout.
    rewrite Hdf, Hcat in Hout. done.
Qed.

Lemma only_result_columns_written_witness :
  cell allocated_cd 1 "Eng" = cell roster_cd 1 "Eng".
Proof.
  refine (proj1 (proj2 (proj2 (only_result_columns_written
            "roster.xlsx" "universities.json" override_42 (world_cd catalog_xy)
            roster_cd _ _ _ _))) 1%nat "Eng" _).
  - vm_compute. reflexivity.
  - refine (bool_decide_unpack _ _). vm_compute. exact I.
  - vm_compute. reflexivity.
  - refine (bool_decide_unpack _ _). vm_compute. exact I.
Defined.

(** C10 as stated fails on a roster that already has a column of one of the
    three names: the grade B of the subject "Reasoning" is blanked by line 35
    before the score is taken, and the column then holds the text of the
    decision. *)
Lemma reasoning_subject_overwritten :
  "Reasoning" ∈ columns roster_reasoning ∧
  cell roster_reasoning 0 "Reasoning" = Some (CStr "B") ∧
  (allocate "roster.xlsx" "universities.json" None world_reasoning).1
  = Ok (mkDataFrame
          ["Student ID"; "Name"; "Math"; "Reasoning";
           "Allocated University"; "Allocated Course"]
          [ [CStr "S1"; CStr "Ann"; CStr "A";
             CStr "Total score 5 meets minimum 5";
             CStr "UniA"; CStr "CourseX"] ]) ∧
  ¬ (∀ out,
       (allocate "roster.xlsx" "universities.json" None world_reasoning).1
       = Ok out →
       ∀ i c, c ∈ columns roster_reasoning →
              cell out i c = cell roster_reasoning i c).
Proof.
  split_and!; [in_literal | reflexivity | reflexivity |].
  intros Hkept.
  pose proof (Hkept _ eq_refl 0%nat "Reasoning") as Hcell.
  assert ("Reasoning" ∈ columns roster_reasoning) as Hc by in_literal.
  specialize (Hcell Hc). vm_compute in Hcell. discriminate.
Qed.


(** ** Best fit on catalogs with distinct course names *)

Lemma min_score_by_name_distinct (universities : list University) (c : Course) :
  NoDup (name <$> all_courses universities) →
  thresholds_present universities →
  c ∈ all_courses universities →
  min_score_by_name universities (name c) = Ok (get_min_score c).
Proof.
  intros Hnd Hpresent Hc. unfold min_score_by_name.
  destruct (list_find_elem_of (λ c', name c' = name c) _ c Hc eq_refl)
    as [[i c'] Hf].
  rewrite Hf. apply list_find_Some in Hf as (Hi & Hname & _).
  apply list_elem_of_lookup in Hc as [j Hj].
  assert (i = j) as <-.
  { eapply NoDup_lookup; [exact Hnd | |]; rewrite list_lookup_fmap;
      [by rewrite Hi | by rewrite Hj, Hname]. }
  simplify_eq. unfold thresholds_present in Hpresent.
  rewrite Forall_forall in Hpresent.
  destruct (Hpresent c) as [m Hm]; [by eapply list_elem_of_lookup_2|].
  unfold index_min_score, get_min_score. by rewrite Hm.
Qed.

Lemma entries_all_courses (universities : list University) (e : string * Course) :
  e ∈ entries universities → e.2 ∈ all_courses universities.
Proof.
  intros He. rewrite <-entries_courses. by apply list_elem_of_fmap_2.
Qed.

Lemma keep_best_entry (universities : list University) (total : Z)
    (best : option (string * Course)) (e b : string * Course) :
  e ∈ entries universities →
  (∀ b', best = Some b' → b' ∈ entries universities) →
  keep_best total best e = Some b → b ∈ entries universities.
Proof.
  intros He Hbest. unfold keep_best.
  destruct best as [b0|]; repeat case_bool_decide; intros Hb; simplify_eq;
    first [ exact He | by apply Hbest ].
Qed.

Lemma consider_course_keep_best (universities : list University) (total : Z)
    (best : option (string * Course)) (e : string * Course) :
  distinct_names universities → thresholds_present universities →
  (∀ b, best = Some b → b ∈ entries universities) →
  consider_course universities total e.1 e.2 (decision_of total best)
  = Ok (decision_of total (keep_best total best e)).
Proof.
  intros [Hnd Hnames] Hpresent Hbest. unfold consider_course, keep_best.
  case_bool_decide as Hmin; [|done].
  destruct best as [b|]; unfold decision_of, no_course; cbn [fst snd].
  - specialize (Hbest b eq_refl). apply entries_all_courses in Hbest.
    rewrite bool_decide_eq_false_2
      by (rewrite Forall_forall in Hnames; by apply Hnames).
    rewrite min_score_by_name_distinct by done. cbn [rbind].
    by case_bool_decide.
  - rewrite bool_decide_eq_true_2 by done. done.
Qed.

Lemma best_fit_loop_select (universities : list University) (total : Z)
    (es : list (string * Course)) (best : option (string * Course)) :
  distinct_names universities → thresholds_present universities →
  (∀ e, e ∈ es → e ∈ entries universities) →
  (∀ b, best = Some b → b ∈ entries universities) →
  for_each (λ e, consider_course universities total e.1 e.2) es
           (decision_of total best)
  = Ok (decision_of total (foldl (keep_best total) best es)).
Proof.
  intros Hdistinct Hpresent. revert best.
  induction es as [|e es IH]; intros best Hes Hbest; [done|]. simpl.
  rewrite consider_course_keep_best by done. cbn [rbind].
  apply IH.
  - intros e' ?. apply Hes. by right.
  - intros b. apply keep_best_entry; [|done]. apply Hes. by left.
Qed.

(** On such a catalog the two loops compute the specified selection. *)
Lemma best_fit_is_select_best (row : Series) (universities : list University)
    (total : Z) :
  distinct_names universities → thresholds_present universities →
  best_fit_allocation row universities total
  = Ok (decision_of total (select_best total (entries universities))).
Proof.
  intros Hdistinct Hpresent. unfold best_fit_allocation, select_best.
  rewrite best_fit_as_entries.
  by apply (best_fit_loop_select universities total _ None).
Qed.

(** What the specified selection returns: nothing when no entry is a
    candidate, and otherwise a candidate whose minimum score no candidate
    exceeds and no earlier candidate equals. *)
Lemma select_best_spec (total : Z) (es : list (string * Course)) :
  match select_best total es with
  | None => ∀ e, e ∈ es → total < get_min_score e.2
  | Some b =>
      ∃ i, es !! i = Some b ∧ get_min_score b.2 ≤ total ∧
        ∀ j e, es !! j = Some e → get_min_score e.2 ≤ total →
          get_min_score e.2 ≤ get_min_score b.2 ∧
          ((j < i)%nat → get_min_score e.2 < get_min_score b.2)
  end.
Proof.
  unfold select_best. induction es as [|e es IH] using rev_ind.
  - simpl. intros e He. by apply elem_of_nil in He.
  - rewrite foldl_app. simpl. unfold keep_best at 1.
    destruct (foldl (keep_best total) None es) as [b|].
    + destruct IH as (i & Hi & Hb & Hmax).
      assert (i < length es)%nat as Hlt by (by eapply lookup_lt_Some).
      case_bool_decide as Hmin; [case_bool_decide as Hgt|].
      * exists (length es). split_and!; [by apply list_lookup_middle | done |].
        intros j e' [Hj | [Hj He']]%lookup_app_Some Hc.
        -- destruct (Hmax j e' Hj Hc) as [Hle _]. lia.
        -- destruct (j - length es)%nat eqn:Hd; simplify_eq/=. lia.
      * exists i. split_and!; [by apply lookup_app_l_Some | done |].
        intros j e' [Hj | [Hj He']]%lookup_app_Some Hc.
        -- by apply Hmax.
        -- destruct (j - length es)%nat eqn:Hd; simplify_eq/=. lia.
      * exists i. split_and!; [by apply lookup_app_l_Some | done |].
        intros j e' [Hj | [Hj He']]%lookup_app_Some Hc.
        -- by apply Hmax.
        -- destruct (j - length es)%nat eqn:Hd; simplify_eq/=. lia.
    + case_bool_decide as Hmin.
      * exists (length es). split_and!; [by apply list_lookup_middle | done |].
        intros j e' [Hj | [Hj He']]%lookup_app_Some Hc.
        -- apply list_elem_of_lookup_2, IH in Hj. lia.
        -- destruct (j - length es)%nat eqn:Hd; simplify_eq/=. lia.
      * intros e' [He' | ->%list_elem_of_singleton]%elem_of_app; [by apply IH | lia].
Qed.

(** On a catalog whose course names are distinct and non-empty and whose
    courses all carry a minimum score, [best_fit_allocation] returns, and
    what it returns is "No suitable course found" when the score reaches no
    course, and otherwise the first entry, in catalog order, among the
    candidates of greatest minimum score. *)
Theorem best_fit_first_maximal (row : Series) (universities : list University)
    (total : Z) :
  distinct_names universities → thresholds_present universities →
  ∃ r, best_fit_allocation row universities total = Ok r ∧
    ((r = no_course ∧
      ∀ e, e ∈ entries universities → total < get_min_score e.2) ∨
     (∃ i u c,
        entries universities !! i = Some (u, c) ∧
        r = (u, name c, meets_minimum total (get_min_score c)) ∧
        get_min_score c ≤ total ∧
        ∀ j e, entries universities !! j = Some e →
          get_min_score e.2 ≤ total →
          get_min_score e.2 ≤ get_min_score c ∧
          ((j < i)%nat → get_min_score e.2 < get_min_score c))).
Proof.
  intros Hdistinct Hpresent.
  rewrite best_fit_is_select_best by done. eexists. split; [done|].
  pose proof (select_best_spec total (entries universities)) as Hspec.
  destruct (select_best total (entries universities)) as [[u c]|].
  - right. destruct Hspec as (i & Hi & Hc & Hmax). by exists i, u, c.
  - by left.
Qed.

Lemma best_fit_first_maximal_witness :
  ∃ r, best_fit_allocation student_ab catalog_xy 9 = Ok r.
Proof.
  destruct (best_fit_first_maximal student_ab catalog_xy 9) as (r & Hr & _).
  - split; refine (bool_decide_unpack _ _); vm_compute; exact I.
  - refine (bool_decide_unpack _ _). vm_compute. exact I.
  - by exists r.
Defined.

(** ** Best fit on catalogs with a shared course name or an absent minimum *)

(** C1, at an input where the code departs from it: in the catalog UniA: CS
    (minimum 2), UniB: CS (minimum 8), Math (minimum 5), a student of score 9
    without an override is placed in Math at UniB, of minimum score 5,
    although CS at UniB has the greater minimum score 8 ≤ 9. The minimum
    score of the running best "CS" is looked up by course name and found at
    UniA. *)
Theorem best_fit_shared_name_not_maximal :
  total_score student_ab = Ok 9 ∧
  allocate_row catalog_shared_name None student_ab
  = Ok ("UniB", "Math", "Total score 9 meets minimum 5") ∧
  min_score_by_name catalog_shared_name "CS" = Ok 2 ∧
  ("UniB", mkCourse "CS" (Some 8)) ∈ entries catalog_shared_name ∧
  5 < get_min_score (mkCourse "CS" (Some 8)) ≤ 9.
Proof.
  split_and!; try reflexivity; try done.
  vm_compute. in_literal.
Qed.

(** C2, at an input where the code departs from it: in the catalog UniA: CS
    (minimum 2), UniB: CS (minimum 5), Math (minimum 5), the candidates of
    greatest minimum score for a score of 9 are CS at UniB and then Math at
    UniB; the first of them is CS at UniB, and the code returns Math at UniB,
    having compared Math with the course named "CS" at UniA. *)
Theorem best_fit_shared_name_tie_not_first :
  entries catalog_shared_name_tie
  = [ ("UniA", mkCourse "CS" (Some 2)); ("UniB", mkCourse "CS" (Some 5));
      ("UniB", mkCourse "Math" (Some 5)) ] ∧
  select_best 9 (entries catalog_shared_name_tie)
  = Some ("UniB", mkCourse "CS" (Some 5)) ∧
  allocate_row catalog_shared_name_tie None student_ab
  = Ok ("UniB", "Math", "Total score 9 meets minimum 5").
Proof. split_and!; reflexivity. Qed.

(** A course without a minimum score passes the candidate test of line 73
    for every score, scores being non-negative. *)
Lemma absent_min_score_candidate (c : Course) (total : Z) :
  min_score c = None → 0 ≤ total →
  bool_decide (get_min_score c ≤ total) = true.
Proof.
  intros Hc Htotal. unfold get_min_score. rewrite Hc.
  by apply bool_decide_eq_true_2.
Qed.

(** C7, at an input where the code departs from it: in the catalog UniA:
    Open (no minimum score), Math (minimum 3), Open counts as of minimum
    score 0 in the candidate test and becomes the running best of a student
    of score 9, but when Math is compared with it line 75 indexes Open's
    absent minimum score and the whole run of [allocate] raises KeyError. *)
Theorem absent_min_score_raises :
  get_min_score (mkCourse "Open" None) = 0 ∧
  consider_course catalog_open_course 9 "UniA" (mkCourse "Open" None) no_course
  = Ok ("UniA", "Open", "Total score 9 meets minimum 0") ∧
  allocate_row catalog_open_course None student_ab
  = Raise (KeyError "min_score") ∧
  (allocate "roster.xlsx" "universities.json" None world_open_course).1
  = Raise (KeyError "min_score").
Proof. split_and!; reflexivity. Qed.

(** C8, at an input where the code departs from it: for the roster of the
    two students S1 and 42 and the catalog UniA: Open (no minimum score),
    Math (minimum 3), the run of [allocate] raises KeyError at the first
    student and returns no table, so neither student has a result; with the
    minimum score 0 of Open written out the same roster comes back with one
    result per student, in the roster's order. *)
Theorem absent_min_score_leaves_no_result :
  well_formed roster_cd ∧ length (rows roster_cd) = 2%nat ∧
  thresholds_present catalog_open_zero ∧
  ¬ thresholds_present catalog_open_course ∧
  (allocate "roster.xlsx" "universities.json" None
     (world_cd catalog_open_course)).1
  = Raise (KeyError "min_score") ∧
  (allocate "roster.xlsx" "universities.json" None
     (world_cd catalog_open_zero)).1
  = Ok (mkDataFrame
          ["Student ID"; "Name"; "Math"; "Eng";
           "Allocated University"; "Allocated Course"; "Reasoning"]
          [ [CStr "S1"; CStr "Ann"; CStr "A"; CStr "B";
             CStr "UniA"; CStr "Math"; CStr "Total score 9 meets minimum 3"];
            [CInt 42; CStr "Bob"; CStr "C"; CStr "D";
             CStr "UniA"; CStr "Math"; CStr "Total score 5 meets minimum 3"] ]).
Proof.
  split_and!; try reflexivity.
  - refine (bool_decide_unpack _ _). vm_compute. exact I.
  - refine (bool_decide_unpack _ _). vm_compute. exact I.
  - intros Hpresent. apply Forall_cons in Hpresent as [[? [=]] _].
Qed.

(** C3, at an input where the code departs from it: student 42 has the
    override (UniC, CourseZ). The iteration for the row of 42 takes the
    override whatever the catalog, and with the catalog UniA: CourseX, UniB:
    CourseY the table [allocate] returns holds it in the row of 42. With the
    catalog UniA: Open (no minimum score), Math (minimum 3) the run raises
    KeyError at the row of S1, before the row of 42 is reached, and 42 has no
    result: what [allocate] gives the overridden student depends on the
    catalog. *)
Theorem override_lost_with_the_run :
  iterrows (blank_result_columns roster_cd) !! 1%nat
  = Some (1%nat,
          [("Student ID", CInt 42); ("Name", CStr "Bob"); ("Math", CStr "C");
           ("Eng", CStr "D"); ("Allocated University", CStr "");
           ("Allocated Course", CStr ""); ("Reasoning", CStr "")]) ∧
  allocate_row catalog_open_course override_42
    [("Student ID", CInt 42); ("Name", CStr "Bob"); ("Math", CStr "C");
     ("Eng", CStr "D"); ("Allocated University", CStr "");
     ("Allocated Course", CStr ""); ("Reasoning", CStr "")]
  = Ok ("UniC", "CourseZ", "Manual override applied") ∧
  (allocate "roster.xlsx" "universities.json" override_42
     (world_cd catalog_xy)).1
  = Ok allocated_cd ∧
  cell allocated_cd 1 "Student ID" = Some (CInt 42) ∧
  holds_decision allocated_cd 1 ("UniC", "CourseZ", "Manual override applied") ∧
  (allocate "roster.xlsx" "universities.json" override_42
     (world_cd catalog_open_course)).1
  = Raise (KeyError "min_score").
Proof. split_and!; try reflexivity. by split_and!. Qed.

(** ** More on the allocation loop *)

(** X15: in every table [allocate] returns, a row whose identifier has an
    entry in the override table keeps its identifier and holds, in the three
    result columns, the entry's university, the entry's course and "Manual
    override applied", whatever the catalog and the grades of the row. *)
Theorem override_written_in_table (excel_path uni_json_path : string)
    (table : gmap string Override) (w : World) (df out : DataFrame)
    (i : nat) (id : Cell) (entry : Override) :
  excel_files w !! excel_path = Some df →
  well_formed df →
  (allocate excel_path uni_json_path (Some table) w).1 = Ok out →
  cell df i "Student ID" = Some id →
  table !! py_str id = Some entry →
  cell out i "Student ID" = Some id ∧
  cell out i "Allocated University" = Some (CStr (university entry)) ∧
  cell out i "Allocated Course" = Some (CStr (course entry)) ∧
  cell out i "Reasoning" = Some (CStr "Manual override applied").
Proof.
  intros Hdf Hwf Hout Hid Hentry.
  assert ("Student ID" ∉ result_columns) as Hnot.
  { unfold result_columns. rewrite !elem_of_cons, elem_of_nil.
    intuition congruence. }
  assert (i < length (rows df))%nat as Hi.
  { unfold cell in Hid. destruct (rows df !! i) as [r|] eqn:Hr; [|done].
    by eapply lookup_lt_Some. }
  destruct (json_files w !! uni_json_path) as [universities|] eqn:Hcat.
  - rewrite (allocate_reads _ _ _ _ _ _ Hdf Hcat) in Hout. simpl in Hout.
    apply allocate_frame_returned in Hout as (_ & _ & Hframe & Hown); [|done].
    destruct (Hown i Hi) as (row & r & _ & Hsame & Hr & Hd).
    unfold allocate_row in Hr. rewrite (Hsame _ _ Hnot Hid) in Hr.
    cbn [rbind] in Hr. cbv zeta in Hr.
    rewrite (find_override_lookup _ _ _ Hentry) in Hr. simplify_eq.
    split; [by rewrite Hframe|]. exact Hd.
  - unfold allocate, io_bind, read_excel, json_load in Hout.
    rewrite Hdf, Hcat in Hout. done.
Qed.

Lemma override_written_in_table_witness :
  cell allocated_cd 1 "Student ID" = Some (CInt 42) ∧
  cell allocated_cd 1 "Allocated University" = Some (CStr "UniC") ∧
  cell allocated_cd 1 "Allocated Course" = Some (CStr "CourseZ") ∧
  cell allocated_cd 1 "Reasoning" = Some (CStr "Manual override applied").
Proof.
  refine (override_written_in_table "roster.xlsx" "universities.json"
            {[ "42" := mkOverride "UniC" "CourseZ" ]} (world_cd catalog_xy)
            roster_cd allocated_cd 1%nat (CInt 42)
            (mkOverride "UniC" "CourseZ") _ _ _ _ _).
  - vm_compute. reflexivity.
  - refine (bool_decide_unpack _ _). vm_compute. exact I.
  - vm_compute. reflexivity.
  - reflexivity.
  - vm_compute. reflexivity.
Defined.

Lemma for_each_ext {A S : Type} (body1 body2 : A → S → Result S)
    (xs : list A) (s : S) :
  (∀ x t, x ∈ xs → body1 x t = body2 x t) →
  for_each body1 xs s = for_each body2 xs s.
Proof.
  revert s. induction xs as [|x xs IH]; intros s Hext; simpl; [done|].
  rewrite Hext by left. destruct (body2 x s); simpl; [|done].
  apply IH. intros y t Hy. apply Hext. by right.
Qed.

(** The emptiness test of line 41 changes nothing: membership decides. *)
Lemma find_override_Some (table : gmap string Override) (student_id : string) :
  find_override (Some table) student_id = table !! student_id.
Proof.
  unfold find_override. case_bool_decide as Hsize; [|done].
  apply map_size_empty_iff in Hsize as ->. by rewrite lookup_empty.
Qed.

Lemma allocate_frame_same_overrides (df : DataFrame)
    (universities : list University)
    (overrides1 overrides2 : option (gmap string Override)) :
  well_formed df →
  (∀ i id, cell df i "Student ID" = Some id →
     find_override overrides1 (py_str id) = find_override overrides2 (py_str id)) →
  allocate_frame df universities overrides1
  = allocate_frame df universities overrides2.
Proof.
  intros Hwf Hsame. unfold allocate_frame. apply for_each_ext.
  intros [i row] cur Hrow. unfold allocate_step, allocate_row. simpl.
  apply list_elem_of_lookup in Hrow as [j Hj].
  assert (j = i) as ->.
  { rewrite iterrows_lookup in Hj. by apply fmap_Some in Hj as (? & _ & [= -> _]). }
  rewrite (iterrows_series_get _ _ _ _
             (blank_result_columns_well_formed _ Hwf) Hj).
  rewrite cell_blank_result_columns by done.
  rewrite decide_False
    by (unfold result_columns; rewrite !elem_of_cons, elem_of_nil;
        intuition congruence).
  destruct (cell df i "Student ID") as [id|] eqn:Hid; cbn [rbind]; [|done].
  cbv zeta. by rewrite (Hsame i id Hid).
Qed.

(** X1: overrides count only for the identifiers of the roster: two override
    tables that agree on them give the same run of [allocate], so an entry
    stored for an identifier that no row carries is inert, and no table
    ([None]) is as good as an empty one. *)
Theorem overrides_of_other_students_inert (df : DataFrame)
    (universities : list University) (table : gmap string Override)
    (student_id : string) (entry : Override) :
  well_formed df →
  (∀ i id, cell df i "Student ID" = Some id → py_str id ≠ student_id) →
  allocate_frame df universities (Some (<[student_id := entry]> table))
  = allocate_frame df universities (Some table) ∧
  allocate_frame df universities (Some ∅)
  = allocate_frame df universities None.
Proof.
  intros Hwf Hother. split.
  - apply allocate_frame_same_overrides; [done|].
    intros i id Hid. rewrite !find_override_Some.
    apply lookup_insert_ne. intros Heq. by apply (Hother i id Hid).
  - apply allocate_frame_same_overrides; [done|].
    intros i id _. by rewrite find_override_Some, lookup_empty.
Qed.

Lemma overrides_of_other_students_inert_witness :
  allocate_frame roster_ab catalog_xy
    (Some (<["S99" := mkOverride "UniC" "CourseZ"]> ∅))
  = allocate_frame roster_ab catalog_xy (Some ∅).
Proof.
  refine (proj1 (overrides_of_other_students_inert roster_ab catalog_xy ∅
                   "S99" (mkOverride "UniC" "CourseZ") _ _)).
  - refine (bool_decide_unpack _ _). vm_compute. exact I.
  - intros [|[|i]] id Hid; vm_compute in Hid; simplify_eq; discriminate.
Defined.

(** ** Empty rosters and rosters without identifiers *)

(** X2: for a roster without rows [allocate] returns, whatever the catalog, a
    table without rows whose columns are the roster's followed by those of
    "Allocated University", "Allocated Course" and "Reasoning" it did not
    have, so that all three are columns of the table; a roster with rows and
    no "Student ID" column makes [allocate] raise KeyError at the first
    row. *)
Theorem allocate_frame_edge_rosters (df : DataFrame)
    (universities : list University)
    (overrides : option (gmap string Override)) :
  (rows df = [] →
   ∃ out, allocate_frame df universities overrides = Ok out ∧
          rows out = [] ∧
          columns out
          = columns df ++ filter (λ c, c ∉ columns df) result_columns ∧
          "Allocated University" ∈ columns out ∧
          "Allocated Course" ∈ columns out ∧
          "Reasoning" ∈ columns out) ∧
  (well_formed df → rows df ≠ [] → "Student ID" ∉ columns df →
   allocate_frame df universities overrides = Raise (KeyError "Student ID")).
Proof.
  split.
  - intros Hrows.
    assert (rows (blank_result_columns df) = []) as Hblank.
    { apply length_zero_iff_nil. unfold blank_result_columns.
      by rewrite !length_rows_set_column, Hrows. }
    assert (∀ c, c ∈ result_columns → c ∈ columns (blank_result_columns df))
      as Hin.
    { intros c Hc. rewrite columns_blank_result_columns, elem_of_app.
      destruct (decide (c ∈ columns df)) as [|Hnew]; [by left|right].
      by apply list_elem_of_filter. }
    exists (blank_result_columns df).
    split_and!; [|done|apply columns_blank_result_columns|..];
      [|apply Hin; in_literal..].
    unfold allocate_frame, iterrows. by rewrite Hblank.
  - intros Hwf Hrows Hid. unfold allocate_frame.
    pose proof (blank_result_columns_well_formed _ Hwf) as Hwf'.
    destruct (iterrows (blank_result_columns df)) as [|[i row] irs] eqn:Hir.
    { exfalso. apply Hrows. apply length_zero_iff_nil.
      apply (f_equal length) in Hir. unfold iterrows in Hir.
      rewrite length_imap in Hir. unfold blank_result_columns in Hir.
      by rewrite !length_rows_set_column in Hir. }
    simpl. unfold allocate_step, allocate_row. simpl.
    assert (iterrows (blank_result_columns df) !! 0%nat = Some (i, row)) as H0
      by (by rewrite Hir).
    assert (i = 0%nat) as ->.
    { rewrite iterrows_lookup in H0. by apply fmap_Some in H0 as (? & _ & [= -> _]). }
    rewrite (iterrows_series_get _ _ _ _ Hwf' H0).
    rewrite cell_blank_result_columns by done.
    rewrite decide_False
      by (unfold result_columns; rewrite !elem_of_cons, elem_of_nil;
          intuition congruence).
    unfold cell. destruct (rows df !! 0%nat); simpl; [|done].
    apply col_pos_None in Hid. by rewrite Hid.
Qed.

Lemma allocate_frame_edge_rosters_witness :
  (∃ out,
     allocate_frame (mkDataFrame ["Student ID"; "Name"; "Reasoning"] [])
       catalog_xy None = Ok out ∧
     rows out = [] ∧
     columns out
     = ["Student ID"; "Name"; "Reasoning";
        "Allocated University"; "Allocated Course"] ∧
     "Allocated University" ∈ columns out ∧
     "Allocated Course" ∈ columns out ∧
     "Reasoning" ∈ columns out) ∧
  allocate_frame (mkDataFrame ["Name"; "Math"] [[CStr "Ann"; CStr "A"]])
    catalog_xy None
  = Raise (KeyError "Student ID").
Proof.
  split.
  - apply (proj1 (allocate_frame_edge_rosters
                    (mkDataFrame ["Student ID"; "Name"; "Reasoning"] [])
                    catalog_xy None)).
    reflexivity.
  - apply (proj2 (allocate_frame_edge_rosters _ catalog_xy None)).
    + refine (bool_decide_unpack _ _). vm_compute. exact I.
    + discriminate.
    + refine (bool_decide_unpack _ _). vm_compute. exact I.
Defined.

(** ** Unallocated exactly when no course qualifies *)

Lemma placement_not_no_course (universities : list University) (total : Z)
    (r : Best) :
  placement universities total r → r ≠ no_course.
Proof.
  by intros (u & c & _ & _ & _ & ->) [=].
Qed.

Lemma consider_course_stays_placed (universities : list University)
    (total : Z) (e : string * Course) (b b' : Best) :
  e ∈ entries universities →
  placement universities total b →
  consider_course universities total e.1 e.2 b = Ok b' →
  placement universities total b'.
Proof.
  intros He Hb Hb'.
  destruct (consider_course_placement universities total e b b' He
              (or_intror Hb) Hb') as [->|Hp]; [|done].
  exfalso. unfold consider_course in Hb'.
  case_bool_decide; [|simplify_eq; by eapply placement_not_no_course].
  destruct (bool_decide (b.1.2 = "")); cbn [rbind] in Hb'.
  - by injection Hb'.
  - destruct (min_score_by_name universities b.1.2); cbn [rbind] in Hb'; [|done].
    case_bool_decide.
    + by injection Hb'.
    + simplify_eq. by eapply placement_not_no_course.
Qed.

Lemma best_fit_loop_places (universities : list University) (total : Z)
    (es : list (string * Course)) (r : Best) :
  (∀ e, e ∈ es → e ∈ entries universities) →
  Exists (λ e, get_min_score e.2 ≤ total) es →
  for_each (λ e, consider_course universities total e.1 e.2) es no_course = Ok r →
  placement universities total r.
Proof.
  induction es as [|e es IH]; intros Hes Hex; [by apply Exists_nil in Hex|].
  simpl. destruct (decide (get_min_score e.2 ≤ total)) as [Hmin|Hmin].
  - unfold consider_course at 1. rewrite bool_decide_eq_true_2 by done.
    cbn [rbind no_course fst snd].
    rewrite bool_decide_eq_true_2 by done. cbn [rbind].
    apply (for_each_invariant (placement universities total)).
    + intros e' t t' He'. apply consider_course_stays_placed.
      apply Hes. by right.
    + pose proof (Hes e ltac:(left)) as He.
      apply elem_of_entries in He as (u & Hu & Hc & ->).
      exists u, e.2. by repeat split.
  - unfold consider_course at 1. rewrite bool_decide_eq_false_2 by done.
    cbn [rbind]. apply IH.
    + intros e' ?. apply Hes. by right.
    + apply Exists_cons in Hex as [?|?]; done.
Qed.

(** X3: whenever [best_fit_allocation] returns, it returns "No suitable course
    found" exactly when the score is below the minimum score of every course
    of the catalog: a student who qualifies for some course is never left
    unallocated. *)
Theorem unallocated_iff_no_candidate (row : Series)
    (universities : list University) (total : Z) (r : Best) :
  best_fit_allocation row universities total = Ok r →
  (r = ("", "", "No suitable course found")
   ↔ ∀ c, c ∈ all_courses universities → total < get_min_score c).
Proof.
  intros Hr. split.
  - intros -> c Hc.
    destruct (decide (total < get_min_score c)) as [|Hmin]; [done|]. exfalso.
    unfold best_fit_allocation in Hr. rewrite best_fit_as_entries in Hr.
    apply best_fit_loop_places in Hr; [by apply placement_not_no_course in Hr|done|].
    rewrite <-entries_courses in Hc.
    apply list_elem_of_fmap in Hc as (e & -> & He).
    apply Exists_exists. exists e. split; [done|lia].
  - intros Hnone. rewrite best_fit_no_candidate in Hr by done. by injection Hr as <-.
Qed.

Lemma unallocated_iff_no_candidate_witness :
  ("UniB", "Math", "Total score 9 meets minimum 5")
  = ("", "", "No suitable course found")
  ↔ ∀ c, c ∈ all_courses catalog_shared_name → 9 < get_min_score c.
Proof.
  apply (unallocated_iff_no_candidate student_ab catalog_shared_name 9).
  reflexivity.
Defined.

(** ** A better score never lowers the placement *)

Lemma select_best_entry (total : Z) (es : list (string * Course))
    (b : string * Course) :
  select_best total es = Some b → b ∈ es ∧ get_min_score b.2 ≤ total.
Proof.
  intros Hb. pose proof (select_best_spec total es) as Hspec.
  rewrite Hb in Hspec. destruct Hspec as (i & Hi & Hmin & _).
  split; [by eapply list_elem_of_lookup_2 | done].
Qed.

(** X4: on a catalog with distinct, non-empty course names and a minimum
    score on every course: when a student of score [total] is placed in [c],
    any score [total'] at least as high is placed too, in a course whose
    minimum score is at least that of [c]. *)
Theorem higher_score_no_lower_course (row row' : Series)
    (universities : list University) (total total' : Z) (u : string)
    (c : Course) :
  distinct_names universities → thresholds_present universities →
  total ≤ total' →
  (u, c) ∈ entries universities →
  best_fit_allocation row universities total
  = Ok (u, name c, meets_minimum total (get_min_score c)) →
  ∃ u' c', (u', c') ∈ entries universities ∧
    get_min_score c ≤ get_min_score c' ≤ total' ∧
    best_fit_allocation row' universities total'
    = Ok (u', name c', meets_minimum total' (get_min_score c')).
Proof.
  intros Hdistinct Hpresent Hle Hc Hr.
  rewrite best_fit_is_select_best in Hr by done.
  rewrite best_fit_is_select_best by done.
  destruct (select_best total (entries universities)) as [[u0 c0]|] eqn:Hsel;
    simpl in Hr.
  2: { by injection Hr. }
  injection Hr as -> Hname _.
  apply select_best_entry in Hsel as [Hin0 Hmin0]. simpl in Hmin0.
  assert (c0 = c) as ->.
  { destruct Hdistinct as [Hnd _].
    apply entries_all_courses in Hin0, Hc. simpl in *.
    apply list_elem_of_lookup in Hin0 as [i Hi], Hc as [j Hj].
    assert (i = j) as <-; [|by simplify_eq].
    eapply NoDup_lookup; [exact Hnd | |]; rewrite list_lookup_fmap;
      [by rewrite Hi | by rewrite Hj, Hname]. }
  pose proof (select_best_spec total' (entries universities)) as Hspec.
  destruct (select_best total' (entries universities)) as [[u' c']|] eqn:Hsel'.
  - destruct Hspec as (i & Hi & Hmin' & Hmax). simpl in *.
    apply list_elem_of_lookup in Hin0 as [j Hj].
    destruct (Hmax j (u, c) Hj ltac:(simpl; lia)) as [Hcc _]. simpl in Hcc.
    exists u', c'. split_and!; [by eapply list_elem_of_lookup_2 | done..].
  - exfalso. specialize (Hspec (u, c) Hin0). simpl in Hspec. lia.
Qed.

Lemma higher_score_no_lower_course_witness :
  ∃ u' c', (u', c') ∈ entries catalog_xy ∧
    get_min_score (mkCourse "CourseX" (Some 5)) ≤ get_min_score c' ≤ 9 ∧
    best_fit_allocation student_ab catalog_xy 9
    = Ok (u', name c', meets_minimum 9 (get_min_score c')).
Proof.
  apply (higher_score_no_lower_course student_ab student_ab catalog_xy 6 9 "UniA").
  - split; refine (bool_decide_unpack _ _); vm_compute; exact I.
  - refine (bool_decide_unpack _ _). vm_compute. exact I.
  - lia.
  - vm_compute. in_literal.
  - reflexivity.
Defined.

(** ** Bounds on the score *)

(** X5: the score is at most five points for each field that is not "Student ID"
    or "Name". *)
Theorem total_score_at_most_five_each (row : Series) :
  ∃ z, total_score row = Ok z ∧
       0 ≤ z ≤ 5 * Z.of_nat (length (subject_fields row)).
Proof.
  unfold total_score.
  assert (length (filter (λ sub, sub ∉ ["Student ID"; "Name"]) (index row))
          = length (subject_fields row)) as <-.
  { unfold index, subject_fields.
    induction row as [|kv row IH]; [done|]. rewrite fmap_cons.
    destruct (decide (kv.1 ∉ ["Student ID"; "Name"])).
    - rewrite (filter_cons_True (λ sub : string, _)) by done.
      rewrite (filter_cons_True (λ kv' : string * Cell, _)) by done.
      simpl. by rewrite IH.
    - rewrite (filter_cons_False (λ sub : string, _)) by done.
      by rewrite (filter_cons_False (λ kv' : string * Cell, _)) by done. }
  assert (∀ subs acc, (∀ sub, sub ∈ subs → sub ∈ index row) →
    ∃ z, for_each
      (λ sub acc, let* v := series_get row sub in
                  Ok (acc + default 0 (GRADE_TO_SCORE !! py_str v))) subs acc
      = Ok z ∧ acc ≤ z ≤ acc + 5 * Z.of_nat (length subs)) as Hloop.
  { induction subs as [|sub subs IH]; intros acc Hsub; simpl.
    - exists acc. split; [done|lia].
    - destruct (series_get_index row sub) as [v ->]; [apply Hsub; by left|].
      cbn [rbind].
      destruct (IH (acc + default 0 (GRADE_TO_SCORE !! py_str v)))
        as (z & -> & Hz); [intros sub' ?; apply Hsub; by right|].
      exists z. split; [done|]. rewrite grade_lookup in Hz.
      assert (0 ≤ grade_points (py_str v) ≤ 5)
        by (unfold grade_points; repeat case_decide; lia).
      lia. }
  destruct (Hloop (filter (λ sub, sub ∉ ["Student ID"; "Name"]) (index row)) 0)
    as (z & Hz & Hb).
  - intros sub Hsub. by apply list_elem_of_filter in Hsub as [_ ?].
  - exists z. split; [done|lia].
Qed.

(** ** The returned table as a roster *)

Lemma set_at_well_formed (idx : nat) (label : string) (v : Cell) (df : DataFrame) :
  well_formed df → well_formed (set_at idx label v df).
Proof.
  intros [Hnd Hlen]. unfold set_at.
  destruct (col_pos label (columns df)) as [j|]; [|done].
  split; simpl; [done|].
  apply Forall_lookup. intros i r Hr. rewrite list_lookup_alter in Hr.
  case_decide; subst.
  - apply fmap_Some in Hr as (r0 & Hr0 & ->). rewrite length_insert.
    by eapply (Forall_lookup_1 _ _ _ _ Hlen).
  - by eapply (Forall_lookup_1 _ _ _ _ Hlen).
Qed.

Lemma allocate_frame_well_formed (df out : DataFrame)
    (universities : list University)
    (overrides : option (gmap string Override)) :
  well_formed df → allocate_frame df universities overrides = Ok out →
  well_formed out.
Proof.
  intros Hwf. unfold allocate_frame.
  apply (for_each_invariant well_formed).
  - intros [i row] cur cur' _ Hcur. unfold allocate_step.
    destruct (allocate_row _ _ _); cbn [rbind]; [|done].
    intros [= <-]. unfold write_result. by do 3 apply set_at_well_formed.
  - by apply blank_result_columns_well_formed.
Qed.

Lemma col_pos_NoDup (cols : list string) (j : nat) (c : string) :
  NoDup cols → cols !! j = Some c → col_pos c cols = Some j.
Proof.
  intros Hnd Hj. unfold col_pos.
  destruct (list_find_elem_of (λ x, x = c) cols c) as [[i x] Hf];
    [by eapply list_elem_of_lookup_2 | done |].
  rewrite Hf. simpl. f_equal.
  apply list_find_Some in Hf as (Hi & -> & _).
  by eapply NoDup_lookup.
Qed.

(** Two well-formed frames with the same columns, as many rows and the same
    cells are the same frame. *)
Lemma frame_ext (d1 d2 : DataFrame) :
  well_formed d1 → well_formed d2 →
  columns d1 = columns d2 → length (rows d1) = length (rows d2) →
  (∀ i c, cell d1 i c = cell d2 i c) → d1 = d2.
Proof.
  destruct d1 as [cols rows1], d2 as [cols2 rows2]. simpl.
  intros [Hnd Hlen1] [_ Hlen2] <- Hrows Hcell. simpl in *. f_equal.
  apply list_eq. intros i.
  destruct (rows1 !! i) as [r1|] eqn:Hr1.
  - destruct (lookup_lt_is_Some_2 rows2 i) as [r2 Hr2];
      [rewrite <-Hrows; by eapply lookup_lt_Some|].
    rewrite Hr2. f_equal. apply list_eq. intros j.
    pose proof (Forall_lookup_1 _ _ _ _ Hlen1 Hr1) as Hl1.
    pose proof (Forall_lookup_1 _ _ _ _ Hlen2 Hr2) as Hl2. simpl in *.
    destruct (cols !! j) as [c|] eqn:Hc.
    + specialize (Hcell i c). unfold cell in Hcell. simpl in Hcell.
      rewrite Hr1, Hr2 in Hcell. simpl in Hcell.
      by rewrite (col_pos_NoDup cols j c Hnd Hc) in Hcell.
    + apply lookup_ge_None in Hc.
      rewrite !(proj2 (lookup_ge_None _ _)) by lia. done.
  - symmetry. apply lookup_ge_None. rewrite <-Hrows. by apply lookup_ge_None.
Qed.

Lemma blank_result_columns_again (df out : DataFrame) :
  well_formed df → well_formed out →
  columns out = columns (blank_result_columns df) →
  length (rows out) = length (rows df) →
  (∀ i c, c ∉ result_columns → cell out i c = cell df i c) →
  blank_result_columns out = blank_result_columns df.
Proof.
  intros Hwf Hwf' Hcols Hlen Hframe.
  assert (filter (λ c, c ∉ columns out) result_columns = []) as Hnew.
  { destruct (filter (λ c, c ∉ columns out) result_columns) as [|c l] eqn:Hf;
      [done|exfalso].
    assert (c ∈ filter (λ c, c ∉ columns out) result_columns) as Hc
      by (rewrite Hf; left).
    apply list_elem_of_filter in Hc as [Hnin Hc]. apply Hnin.
    rewrite Hcols, columns_blank_result_columns.
    destruct (decide (c ∈ columns df)); apply elem_of_app; [by left|right].
    by apply list_elem_of_filter. }
  apply frame_ext; try by apply blank_result_columns_well_formed.
  - by rewrite (columns_blank_result_columns out), Hnew, app_nil_r.
  - unfold blank_result_columns. by rewrite !length_rows_set_column.
  - intros i c. rewrite !cell_blank_result_columns by done. rewrite Hlen.
    case_decide; [done|]. by apply Hframe.
Qed.

(** X6: the table [allocate] returns is again a well-formed roster, and running
    the allocation on it, with the same catalog and overrides, returns the
    same table: the three result columns are blanked and filled as
    before. *)
Theorem allocate_frame_on_its_result (df out : DataFrame)
    (universities : list University)
    (overrides : option (gmap string Override)) :
  well_formed df →
  allocate_frame df universities overrides = Ok out →
  well_formed out ∧ allocate_frame out universities overrides = Ok out.
Proof.
  intros Hwf Hout.
  pose proof (allocate_frame_well_formed _ _ _ _ Hwf Hout) as Hwf'.
  split; [done|].
  pose proof Hout as Hret.
  apply allocate_frame_returned in Hret as (Hcols & Hlen & Hframe & _); [|done].
  unfold allocate_frame in *.
  rewrite (blank_result_columns_again df out); try done.
  by rewrite columns_blank_result_columns.
Qed.

Lemma allocate_frame_on_its_result_witness :
  ∃ out, allocate_frame roster_ab catalog_xy override_42 = Ok out ∧
         allocate_frame out catalog_xy override_42 = Ok out.
Proof.
  eexists. split; [vm_compute; reflexivity|].
  refine (proj2 (allocate_frame_on_its_result roster_ab _ catalog_xy
                   override_42 _ _)).
  - refine (bool_decide_unpack _ _). vm_compute. exact I.
  - vm_compute. reflexivity.
Defined.

(** ** Strings and collected loops *)

Lemma append_assoc (s1 s2 s3 : string) :
  (s1 +:+ s2) +:+ s3 = s1 +:+ (s2 +:+ s3).
Proof.
  induction s1 as [|a s1 IH]; [done|].
  change (String a ((s1 +:+ s2) +:+ s3) = String a (s1 +:+ (s2 +:+ s3))).
  by rewrite IH.
Qed.

Lemma append_nil_r (s : string) : s +:+ "" = s.
Proof.
  induction s as [|a s IH]; [done|].
  change (String a (s +:+ "") = String a s). by rewrite IH.
Qed.

Lemma concat_strings_cons (l : string) (ls : list string) :
  concat_strings (l :: ls) = l +:+ concat_strings ls.
Proof. done. Qed.

(** A loop that appends one piece of text per element is the text of the
    pieces collected. *)
Lemma for_each_append {A : Type} (body : A → string → Result string)
    (piece : A → Result string) (xs : list A) (s : string) :
  (∀ x t, x ∈ xs → body x t = let* l := piece x in Ok (t +:+ l)) →
  for_each body xs s
  = let* ls := collect piece xs in Ok (s +:+ concat_strings ls).
Proof.
  revert s. induction xs as [|x xs IH]; intros s Hbody; simpl.
  - by rewrite append_nil_r.
  - rewrite Hbody by left. destruct (piece x) as [l|]; cbn [rbind]; [|done].
    rewrite IH by (intros y t Hy; apply Hbody; by right).
    destruct (collect piece xs) as [ls|]; cbn [rbind]; [|done].
    by rewrite concat_strings_cons, append_assoc.
Qed.

Lemma collect_fmap {A B C : Type} (f : A → Result B) (g : B → C) (xs : list A) :
  collect (λ x, let* y := f x in Ok (g y)) xs
  = let* ys := collect f xs in Ok (g <$> ys).
Proof.
  induction xs as [|x xs IH]; simpl; [done|].
  destruct (f x); cbn [rbind]; [|done]. rewrite IH.
  by destruct (collect f xs).
Qed.

Lemma collect_Ok {A B : Type} (f : A → Result B) (xs : list A) (ys : list B) :
  collect f xs = Ok ys ↔ Forall2 (λ x y, f x = Ok y) xs ys.
Proof.
  revert ys. induction xs as [|x xs IH]; intros ys; simpl.
  - split; [intros [= <-]; constructor | by intros ->%Forall2_nil_inv_l].
  - split.
    + destruct (f x) as [y|] eqn:Hy; cbn [rbind]; [|done].
      destruct (collect f xs) as [ys'|] eqn:Hys; cbn [rbind]; [|done].
      intros [= <-]. constructor; [done|]. by apply IH.
    + intros (y & ys' & Hy & Hys & ->)%Forall2_cons_inv_l.
      rewrite Hy. cbn [rbind]. apply IH in Hys. by rewrite Hys.
Qed.

(** ** Both renderings of the table show the same values *)

Lemma table_body (ir : nat * Series) (html : string) :
  (let row := ir.2 in
   let* id := series_get row "Student ID" in
   let* nm := series_get row "Name" in
   let html := html +:+ ("<tr><td>" +:+ py_str id +:+ "</td><td>"
                           +:+ py_str nm +:+ "</td>") in
   let* uni := series_get row "Allocated University" in
   let* crs := series_get row "Allocated Course" in
   let html := html +:+ ("<td>" +:+ py_str uni +:+ "</td><td>"
                           +:+ py_str crs +:+ "</td>") in
   let* reason := series_get row "Reasoning" in
   Ok (html +:+ ("<td>" +:+ py_str reason +:+ "</td></tr>")))
  = let* l := (let* v := display_row ir.2 in Ok (table_row v)) in
    Ok (html +:+ l).
Proof.
  unfold display_row. cbv zeta.
  destruct (series_get ir.2 "Student ID"); cbn [rbind]; [|done].
  destruct (series_get ir.2 "Name"); cbn [rbind]; [|done].
  destruct (series_get ir.2 "Allocated University"); cbn [rbind]; [|done].
  destruct (series_get ir.2 "Allocated Course"); cbn [rbind]; [|done].
  destruct (series_get ir.2 "Reasoning"); cbn [rbind]; [|done].
  unfold table_row. cbn [fst snd]. by rewrite !append_assoc.
Qed.

Lemma generate_allocations_table_values (df_alloc : DataFrame) :
  generate_allocations_table df_alloc
  = (let* vs := display_values df_alloc in
     Ok ("<table><tr><th>Student ID</th><th>Name</th><th>Allocated University</th><th>Allocated Course</th><th>Reasoning</th></tr>"
         +:+ concat_strings (table_row <$> vs) +:+ "</table>")).
Proof.
  unfold generate_allocations_table, display_values.
  rewrite (for_each_append _
             (λ ir, let* v := display_row ir.2 in Ok (table_row v)))
    by (intros; apply table_body).
  rewrite collect_fmap.
  destruct (collect _ _); cbn [rbind]; [|done].
  by rewrite append_assoc.
Qed.

Lemma full_pdf_html_values :
  ∃ head tail, ∀ df_alloc,
    full_pdf_html df_alloc
    = (let* vs := display_values df_alloc in
       Ok (head +:+ concat_strings (pdf_row <$> vs) +:+ tail)).
Proof.
  eexists _, _. intros df_alloc. unfold full_pdf_html, display_values.
  cbv zeta.
  rewrite (for_each_append _
             (λ ir, let* v := display_row ir.2 in Ok (pdf_row v))).
  - rewrite collect_fmap.
    destruct (collect _ _); cbn [rbind]; [|done].
    by rewrite append_assoc.
  - intros ir html _. unfold display_row.
    destruct (series_get ir.2 "Student ID"); cbn [rbind]; [|done].
    destruct (series_get ir.2 "Name"); cbn [rbind]; [|done].
    destruct (series_get ir.2 "Allocated University"); cbn [rbind]; [|done].
    destruct (series_get ir.2 "Allocated Course"); cbn [rbind]; [|done].
    destruct (series_get ir.2 "Reasoning"); cbn [rbind]; [|done].
    done.
Qed.

(** X7: [generate_allocations_table] and [generate_full_pdf] read the same five
    values of every row, in row order, and raise the same exception when one
    cannot be read; otherwise the one returns them, unescaped, as table rows
    after its header, and the other hands the renderer, for [pdf_path] and
    in one call, a document with them between a fixed head and a fixed
    tail. When the values cannot be read the renderer is not called. *)
Theorem table_and_pdf_show_display_values :
  (∀ df_alloc,
     generate_allocations_table df_alloc
     = (let* vs := display_values df_alloc in
        Ok ("<table><tr><th>Student ID</th><th>Name</th><th>Allocated University</th><th>Allocated Course</th><th>Reasoning</th></tr>"
            +:+ concat_strings (table_row <$> vs) +:+ "</table>"))) ∧
  (∃ head tail, ∀ df_alloc pdf_path,
     generate_full_pdf df_alloc pdf_path
     = match display_values df_alloc with
       | Ok vs =>
           ([WritePdf pdf_path
               (head +:+ concat_strings (pdf_row <$> vs) +:+ tail)], Ok tt)
       | Raise e => ([], Raise e)
       end).
Proof.
  split; [apply generate_allocations_table_values|].
  destruct full_pdf_html_values as (head & tail & Hhtml).
  exists head, tail. intros df_alloc pdf_path.
  unfold generate_full_pdf, eff_bind, eff_lift, emit. rewrite Hhtml.
  by destruct (display_values df_alloc).
Qed.

(** ** Reading a row of a well-formed frame *)

Lemma cell_is_Some (df : DataFrame) (i : nat) (c : string) :
  well_formed df → (i < length (rows df))%nat → c ∈ columns df →
  is_Some (cell df i c).
Proof.
  intros [_ Hlen] Hi Hc. unfold cell.
  destruct (lookup_lt_is_Some_2 (rows df) i Hi) as [r Hr]. rewrite Hr. simpl.
  apply col_pos_is_Some in Hc as [j Hj]. rewrite Hj. simpl.
  apply lookup_lt_is_Some_2.
  rewrite (Forall_lookup_1 _ _ _ _ Hlen Hr).
  eapply lookup_lt_Some. by apply col_pos_Some.
Qed.

Lemma cell_absent_column (df : DataFrame) (i : nat) (c : string) :
  c ∉ columns df → cell df i c = None.
Proof.
  intros Hc%col_pos_None. unfold cell. rewrite Hc.
  by destruct (rows df !! i).
Qed.

Lemma series_get_present (df : DataFrame) (i : nat) (row : Series) (c : string) :
  well_formed df → iterrows df !! i = Some (i, row) → c ∈ columns df →
  ∃ v, cell df i c = Some v ∧ series_get row c = Ok v.
Proof.
  intros Hwf Hrow Hc.
  destruct (cell_is_Some df i c Hwf) as [v Hv]; [|done|].
  { rewrite iterrows_lookup in Hrow. apply fmap_Some in Hrow as (r & Hr & _).
    by eapply lookup_lt_Some. }
  exists v. split; [done|].
  by rewrite (iterrows_series_get df i row c Hwf Hrow), Hv.
Qed.

Lemma series_get_absent (df : DataFrame) (i : nat) (row : Series) (c : string) :
  well_formed df → iterrows df !! i = Some (i, row) → c ∉ columns df →
  series_get row c = Raise (KeyError c).
Proof.
  intros Hwf Hrow Hc.
  by rewrite (iterrows_series_get df i row c Hwf Hrow), cell_absent_column.
Qed.

Lemma iterrows_lookup_index (df : DataFrame) (j i : nat) (row : Series) :
  iterrows df !! j = Some (i, row) → i = j.
Proof.
  rewrite iterrows_lookup. by intros (? & _ & [= -> _])%fmap_Some.
Qed.

Lemma length_iterrows (df : DataFrame) :
  length (iterrows df) = length (rows df).
Proof. unfold iterrows. apply length_imap. Qed.

(** Reads one of the five columns: raises when the frame lacks it. *)
Ltac read_column df i row Hwf Hrow Hfind c' :=
  let Hd := fresh "Hd" in
  destruct (decide (c' ∉ columns df)) as [Hd|Hd];
  [ simpl in Hfind; simplify_eq;
    rewrite (series_get_absent df i row _ Hwf Hrow Hd); by cbn [rbind]
  | apply dec_stable in Hd;
    destruct (series_get_present df i row c' Hwf Hrow Hd) as (? & _ & ->);
    cbn [rbind] ].

(** The first of the five columns read by name that a frame lacks is the
    one whose reading raises. *)
Lemma display_row_missing (df : DataFrame) (i j : nat) (row : Series) (c : string) :
  well_formed df → iterrows df !! i = Some (i, row) →
  list_find (λ c, c ∉ columns df) display_columns = Some (j, c) →
  display_row row = Raise (KeyError c).
Proof.
  intros Hwf Hrow Hfind. unfold display_columns in Hfind. cbn in Hfind.
  unfold display_row.
  read_column df i row Hwf Hrow Hfind "Student ID".
  read_column df i row Hwf Hrow Hfind "Name".
  read_column df i row Hwf Hrow Hfind "Allocated University".
  read_column df i row Hwf Hrow Hfind "Allocated Course".
  read_column df i row Hwf Hrow Hfind "Reasoning".
  simpl in Hfind. simplify_eq.
Qed.

Lemma display_row_present (df : DataFrame) (i : nat) (row : Series) :
  well_formed df → iterrows df !! i = Some (i, row) →
  (∀ c, c ∈ display_columns → c ∈ columns df) →
  ∃ id nm uni crs reason,
    cell df i "Student ID" = Some id ∧ cell df i "Name" = Some nm ∧
    cell df i "Allocated University" = Some uni ∧
    cell df i "Allocated Course" = Some crs ∧
    cell df i "Reasoning" = Some reason ∧
    display_row row
    = Ok (py_str id, py_str nm, py_str uni, py_str crs, py_str reason).
Proof.
  intros Hwf Hrow Hcols.
  destruct (series_get_present df i row "Student ID" Hwf Hrow)
    as (id & Hid & Hgid); [apply Hcols; in_literal|].
  destruct (series_get_present df i row "Name" Hwf Hrow)
    as (nm & Hnm & Hgnm); [apply Hcols; in_literal|].
  destruct (series_get_present df i row "Allocated University" Hwf Hrow)
    as (uni & Huni & Hguni); [apply Hcols; in_literal|].
  destruct (series_get_present df i row "Allocated Course" Hwf Hrow)
    as (crs & Hcrs & Hgcrs); [apply Hcols; in_literal|].
  destruct (series_get_present df i row "Reasoning" Hwf Hrow)
    as (reason & Hreason & Hgreason); [apply Hcols; in_literal|].
  exists id, nm, uni, crs, reason. split_and!; try done.
  unfold display_row. by rewrite Hgid, Hgnm, Hguni, Hgcrs, Hgreason.
Qed.

Lemma collect_returns {A B : Type} (f : A → Result B) (xs : list A) :
  (∀ x, x ∈ xs → ∃ y, f x = Ok y) → ∃ ys, collect f xs = Ok ys.
Proof.
  induction xs as [|x xs IH]; intros Hf; simpl; [by eexists|].
  destruct (Hf x) as [y ->]; [by left|]. cbn [rbind].
  destruct IH as [ys ->]; [intros x' ?; apply Hf; by right|]. by eexists.
Qed.

(** ** The table of allocations as HTML *)

(** X8: on a well-formed frame [generate_allocations_table] returns the bare
    header when there is no row, whatever the columns; with rows, it raises
    KeyError for the first of "Student ID", "Name", "Allocated University",
    "Allocated Course", "Reasoning" that the frame lacks, and returns when it
    lacks none. *)
Theorem generate_allocations_table_columns (df : DataFrame) :
  well_formed df →
  (rows df = [] →
   generate_allocations_table df
   = Ok "<table><tr><th>Student ID</th><th>Name</th><th>Allocated University</th><th>Allocated Course</th><th>Reasoning</th></tr></table>") ∧
  (rows df ≠ [] → ∀ j c,
     list_find (λ c, c ∉ columns df) display_columns = Some (j, c) →
     generate_allocations_table df = Raise (KeyError c)) ∧
  ((∀ c, c ∈ display_columns → c ∈ columns df) →
   ∃ html, generate_allocations_table df = Ok html).
Proof.
  intros Hwf.
  rewrite generate_allocations_table_values. unfold display_values.
  split_and!.
  - intros Hrows. unfold iterrows. by rewrite Hrows.
  - intros Hrows j c Hfind.
    destruct (iterrows df) as [|[i row] irs] eqn:Hir.
    { exfalso. apply Hrows, length_zero_iff_nil.
      by rewrite <-length_iterrows, Hir. }
    assert (iterrows df !! 0%nat = Some (i, row)) as H0 by (by rewrite Hir).
    pose proof (iterrows_lookup_index _ _ _ _ H0) as ->.
    simpl. by rewrite (display_row_missing df 0 j row c Hwf H0 Hfind).
  - intros Hcols.
    destruct (collect_returns (λ ir, display_row ir.2) (iterrows df)) as [vs ->];
      [|by eexists].
    intros [i row] Hin. apply list_elem_of_lookup in Hin as [j Hj].
    pose proof (iterrows_lookup_index _ _ _ _ Hj) as ->. simpl.
    destruct (display_row_present df j row Hwf Hj Hcols)
      as (? & ? & ? & ? & ? & _ & _ & _ & _ & _ & ->).
    by eexists.
Qed.

Lemma generate_allocations_table_columns_witness :
  generate_allocations_table roster_ab
  = Raise (KeyError "Allocated University").
Proof.
  refine (proj1 (proj2 (generate_allocations_table_columns roster_ab _))
            _ 2%nat _ _).
  - refine (bool_decide_unpack _ _). vm_compute. exact I.
  - discriminate.
  - vm_compute. reflexivity.
Defined.

(** What the five values are on a table [allocate] returned: the roster's
    identifier and name and the decision of the row. *)
Lemma display_values_of_allocate (df out : DataFrame)
    (universities : list University)
    (overrides : option (gmap string Override)) :
  well_formed df → "Name" ∈ columns df →
  allocate_frame df universities overrides = Ok out →
  ∃ vs, display_values out = Ok vs ∧ length vs = length (rows df) ∧
    ∀ i v, vs !! i = Some v →
      ∃ id nm row r,
        cell df i "Student ID" = Some id ∧ cell df i "Name" = Some nm ∧
        iterrows (blank_result_columns df) !! i = Some (i, row) ∧
        series_get row "Student ID" = Ok id ∧
        allocate_row universities overrides row = Ok r ∧
        v = (py_str id, py_str nm, r.1.1, r.1.2, r.2).
Proof.
  intros Hwf Hname Hout.
  pose proof (allocate_frame_well_formed _ _ _ _ Hwf Hout) as Hwf'.
  pose proof Hout as Hret.
  apply allocate_frame_returned in Hret as (Hcols & Hlen & Hframe & Hown);
    [|done].
  assert (∀ i row', iterrows out !! i = Some (i, row') →
    ∃ id nm row r,
      cell df i "Student ID" = Some id ∧ cell df i "Name" = Some nm ∧
      iterrows (blank_result_columns df) !! i = Some (i, row) ∧
      series_get row "Student ID" = Ok id ∧
      allocate_row universities overrides row = Ok r ∧
      display_row row' = Ok (py_str id, py_str nm, r.1.1, r.1.2, r.2)) as Hrow.
  { intros i row' Hrow'.
    assert (i < length (rows df))%nat as Hi.
    { rewrite <-Hlen, <-length_iterrows. by eapply lookup_lt_Some. }
    destruct (Hown i Hi) as (row & r & Hloop & Hsame & Hr & Hu & Hc & Hx).
    destruct (cell_is_Some df i "Name" Hwf Hi Hname) as [nm Hnm].
    assert (∃ id, cell df i "Student ID" = Some id) as [id Hid].
    { unfold allocate_row in Hr.
      rewrite (iterrows_series_get _ _ _ _
                 (blank_result_columns_well_formed _ Hwf) Hloop) in Hr.
      rewrite cell_blank_result_columns in Hr by done.
      rewrite decide_False in Hr
        by (unfold result_columns; rewrite !elem_of_cons, elem_of_nil;
            intuition congruence).
      destruct (cell df i "Student ID"); [by eexists|done]. }
    exists id, nm, row, r. split_and!; try done.
    { by apply Hsame; [unfold result_columns; rewrite !elem_of_cons, elem_of_nil;
                       intuition congruence|]. }
    unfold display_row.
    rewrite !(iterrows_series_get out i row' _ Hwf' Hrow').
    rewrite (Hframe i "Student ID"), (Hframe i "Name"), Hid, Hnm, Hu, Hc, Hx
      by (unfold result_columns; rewrite !elem_of_cons, elem_of_nil;
          intuition congruence).
    done. }
  destruct (collect_returns (λ ir, display_row ir.2) (iterrows out)) as [vs Hvs].
  { intros [i row'] Hin. apply list_elem_of_lookup in Hin as [j Hj].
    pose proof (iterrows_lookup_index _ _ _ _ Hj) as ->. simpl.
    destruct (Hrow j row' Hj) as (? & ? & ? & ? & _ & _ & _ & _ & _ & ->).
    by eexists. }
  exists vs. unfold display_values. split; [done|].
  apply collect_Ok in Hvs. split.
  - by rewrite <-(Forall2_length _ _ _ Hvs), length_iterrows.
  - intros i v Hv.
    destruct (Forall2_lookup_r _ _ _ _ _ Hvs Hv) as ([j row'] & Hj & Hd).
    pose proof (iterrows_lookup_index _ _ _ _ Hj) as ->.
    destruct (Hrow i row' Hj) as (id & nm & row & r & ? & ? & ? & ? & ? & Hd').
    simpl in Hd. rewrite Hd' in Hd. injection Hd as <-.
    by exists id, nm, row, r.
Qed.

(** X9: the table rendered from what [allocate] returns for a well-formed roster
    with a "Name" column is never a KeyError: it is the header, then for
    every row of the roster, in order, one table row with the roster's
    identifier and name and the university, course and reasoning decided for
    that row, then the closing tag. *)
Theorem allocations_table_of_allocate (df out : DataFrame)
    (universities : list University)
    (overrides : option (gmap string Override)) :
  well_formed df → "Name" ∈ columns df →
  allocate_frame df universities overrides = Ok out →
  ∃ vs,
    generate_allocations_table out
    = Ok ("<table><tr><th>Student ID</th><th>Name</th><th>Allocated University</th><th>Allocated Course</th><th>Reasoning</th></tr>"
          +:+ concat_strings (table_row <$> vs) +:+ "</table>") ∧
    length vs = length (rows df) ∧
    ∀ i v, vs !! i = Some v →
      ∃ id nm row r,
        cell df i "Student ID" = Some id ∧ cell df i "Name" = Some nm ∧
        iterrows (blank_result_columns df) !! i = Some (i, row) ∧
        allocate_row universities overrides row = Ok r ∧
        v = (py_str id, py_str nm, r.1.1, r.1.2, r.2).
Proof.
  intros Hwf Hname Hout.
  destruct (display_values_of_allocate df out universities overrides Hwf Hname Hout)
    as (vs & Hvs & Hlen & Hrows).
  exists vs. split_and!; [|done|].
  - by rewrite generate_allocations_table_values, Hvs.
  - intros i v Hv.
    destruct (Hrows i v Hv) as (id & nm & row & r & ? & ? & ? & _ & ? & ?).
    by exists id, nm, row, r.
Qed.

Lemma allocations_table_of_allocate_witness :
  ∃ vs,
    generate_allocations_table allocated_ab
    = Ok ("<table><tr><th>Student ID</th><th>Name</th><th>Allocated University</th><th>Allocated Course</th><th>Reasoning</th></tr>"
          +:+ concat_strings (table_row <$> vs) +:+ "</table>") ∧
    length vs = 2%nat.
Proof.
  destruct (allocations_table_of_allocate roster_ab allocated_ab catalog_xy
              override_42) as (vs & Hvs & Hlen & _).
  - refine (bool_decide_unpack _ _). vm_compute. exact I.
  - refine (bool_decide_unpack _ _). vm_compute. exact I.
  - vm_compute. reflexivity.
  - by exists vs.
Defined.

(** ** Reports *)

Lemma subject_loop (row fields : Series) (html : string) :
  (∀ kv, kv ∈ fields → series_get row kv.1 = Ok kv.2) →
  for_each
    (λ col html_content,
       if bool_decide (col ∉ display_columns) then
         let* v := series_get row col in
         Ok (html_content +:+
               ("<tr><td>" +:+ col +:+ "</td><td>" +:+ py_str v
                  +:+ "</td></tr>"))
       else Ok html_content)
    (index fields) html
  = Ok (html +:+ concat_strings (subject_line <$> report_fields fields)).
Proof.
  revert html. induction fields as [|kv l IH]; intros html Hget.
  - simpl. by rewrite append_nil_r.
  - unfold index, report_fields in *. rewrite fmap_cons. cbn [for_each].
    assert (∀ kv', kv' ∈ l → series_get row kv'.1 = Ok kv'.2) as Hl
      by (intros kv' ?; apply Hget; by right).
    case_bool_decide as Hs.
    + rewrite (Hget kv) by left. cbn [rbind]. rewrite IH by done.
      rewrite (filter_cons_True (λ kv' : string * Cell, _)) by done.
      rewrite fmap_cons, concat_strings_cons. unfold subject_line at 2.
      by rewrite !append_assoc.
    + cbn [rbind]. rewrite IH by done.
      rewrite (filter_cons_False (λ kv' : string * Cell, _))
        by (intros Hn; by apply Hn).
      done.
Qed.

(** The document of a report is its heading, then one line per subject
    field in column order, then its footer. *)
Lemma report_html_fields (df : DataFrame) (row : Series) :
  NoDup (index row) → index row = columns df →
  report_html df row
  = (let* v := display_row row in
     Ok (v.1.1.1.1,
         report_head v.1.1.1.1 v.1.1.1.2
         +:+ concat_strings (subject_line <$> report_fields row)
         +:+ report_tail v.1.1.2 v.1.2 v.2)).
Proof.
  intros Hnd Hindex. unfold report_html, display_row.
  destruct (series_get row "Student ID") as [id|]; cbn [rbind]; [|done].
  destruct (series_get row "Name") as [nm|]; cbn [rbind]; [|done].
  cbv zeta. rewrite <-Hindex, subject_loop
    by (intros [k v] ?; by apply series_get_NoDup).
  cbn [rbind].
  destruct (series_get row "Allocated University") as [uni|]; cbn [rbind]; [|done].
  destruct (series_get row "Allocated Course") as [crs|]; cbn [rbind]; [|done].
  destruct (series_get row "Reasoning") as [reason|]; cbn [rbind]; [|done].
  cbn [fst snd]. by rewrite append_assoc.
Qed.

Lemma iterrows_row_labels (df : DataFrame) (i : nat) (row : Series) :
  well_formed df → iterrows df !! i = Some (i, row) →
  NoDup (index row) ∧ index row = columns df.
Proof.
  intros Hwf Hrow.
  rewrite (iterrows_index df i row Hwf) by (by eapply list_elem_of_lookup_2).
  split; [by destruct Hwf | done].
Qed.

Lemma generate_reports_cases (df : DataFrame)
    (report_dir pdf_dir : Path) :
  well_formed df →
  (∃ reports,
     collect (λ ir, report_html df ir.2) (iterrows df) = Ok reports ∧
     length reports = length (rows df) ∧
     (∀ i report, reports !! i = Some report →
        ∃ id, cell df i "Student ID" = Some id ∧ report.1 = py_str id) ∧
     generate_reports df report_dir pdf_dir
     = (Mkdir report_dir :: Mkdir pdf_dir
          :: (reports ≫= report_writes report_dir pdf_dir), Ok tt)) ∨
  (∃ j c, rows df ≠ [] ∧
     list_find (λ c, c ∉ columns df) display_columns = Some (j, c) ∧
     generate_reports df report_dir pdf_dir
     = ([Mkdir report_dir; Mkdir pdf_dir], Raise (KeyError c))).
Proof.
  intros Hwf.
  assert (∀ i row, iterrows df !! i = Some (i, row) →
            report_html df row
            = (let* v := display_row row in
               Ok (v.1.1.1.1,
                   report_head v.1.1.1.1 v.1.1.1.2
                   +:+ concat_strings (subject_line <$> report_fields row)
                   +:+ report_tail v.1.1.2 v.1.2 v.2))) as Hrow.
  { intros i row Hr. destruct (iterrows_row_labels df i row Hwf Hr).
    by apply report_html_fields. }
  unfold generate_reports, emit, eff_bind. simpl.
  destruct (list_find (λ c, c ∉ columns df) display_columns) as [[j c]|] eqn:Hfind.
  - destruct (iterrows df) as [|[i row] irs] eqn:Hir.
    + left. exists []. split_and!; try done.
      symmetry. by rewrite <-length_iterrows, Hir.
    + right. exists j, c. split_and!; [|done|].
      { intros Hrows. apply (f_equal length) in Hir.
        by rewrite length_iterrows, Hrows in Hir. }
      assert (iterrows df !! 0%nat = Some (i, row)) as H0 by (by rewrite Hir).
      pose proof (iterrows_lookup_index _ _ _ _ H0) as ->.
      simpl. unfold eff_bind, eff_lift. simpl.
      rewrite (Hrow 0%nat row eq_refl).
      by rewrite (display_row_missing df 0 j row c Hwf H0 Hfind).
  - left.
    assert (∀ c, c ∈ display_columns → c ∈ columns df) as Hcols.
    { intros c Hc. apply dec_stable. intros Hnin.
      apply list_find_None in Hfind. rewrite Forall_forall in Hfind.
      by apply (Hfind c Hc). }
    assert (∀ i row, iterrows df !! i = Some (i, row) →
      ∃ id h, cell df i "Student ID" = Some id ∧
              report_html df row = Ok (py_str id, h)) as Hok.
    { intros i row Hr. rewrite (Hrow i row Hr).
      destruct (display_row_present df i row Hwf Hr Hcols)
        as (id & ? & ? & ? & ? & Hid & _ & _ & _ & _ & ->).
      cbn [rbind fst snd]. by eexists _, _. }
    destruct (collect_returns (λ ir, report_html df ir.2) (iterrows df))
      as [reports Hreports].
    { intros [i row] Hin. apply list_elem_of_lookup in Hin as [k Hk].
      pose proof (iterrows_lookup_index _ _ _ _ Hk) as ->. simpl.
      destruct (Hok k row Hk) as (? & ? & _ & ->). by eexists. }
    exists reports. pose proof Hreports as Hall. apply collect_Ok in Hall.
    split_and!; [done| | |].
    + by rewrite <-(Forall2_length _ _ _ Hall), length_iterrows.
    + intros i report Hi.
      destruct (Forall2_lookup_r _ _ _ _ _ Hall Hi) as ([k row] & Hk & Hr).
      pose proof (iterrows_lookup_index _ _ _ _ Hk) as ->. simpl in Hr.
      destruct (Hok i row Hk) as (id & h & Hid & Hh).
      rewrite Hh in Hr. injection Hr as <-. by exists id.
    + clear Hok Hrow. revert reports Hreports Hall.
      induction (iterrows df) as [|[i row] irs IH]; intros reports Hreports Hall.
      * apply Forall2_nil_inv_l in Hall as ->. done.
      * apply Forall2_cons_inv_l in Hall as (report & reports' & Hr & Hall & ->).
        simpl in Hr. simpl. unfold eff_bind at 1, eff_lift. rewrite Hr.
        destruct report as [sid h]. simpl.
        specialize (IH reports' ltac:(by apply collect_Ok) Hall).
        destruct (eff_for_each _ irs) as [evs res].
        injection IH as -> ->. done.
Qed.


(** X10: on a well-formed frame [generate_reports] writes all reports or none:
    either every row's document is built and, after the two [mkdir] calls,
    each row in order has its HTML written under the name of its identifier
    and the PDF rendered from the same document; or the first row already
    raises KeyError for a column the frame lacks and nothing is written. *)
Theorem generate_reports_all_or_nothing (df : DataFrame)
    (report_dir pdf_dir : Path) :
  well_formed df →
  (∃ reports,
     collect (λ ir, report_html df ir.2) (iterrows df) = Ok reports ∧
     length reports = length (rows df) ∧
     (∀ i report, reports !! i = Some report →
        ∃ id, cell df i "Student ID" = Some id ∧ report.1 = py_str id) ∧
     generate_reports df report_dir pdf_dir
     = (Mkdir report_dir :: Mkdir pdf_dir
          :: (reports ≫= report_writes report_dir pdf_dir), Ok tt)) ∨
  (∃ j c, rows df ≠ [] ∧
     list_find (λ c, c ∉ columns df) display_columns = Some (j, c) ∧
     generate_reports df report_dir pdf_dir
     = ([Mkdir report_dir; Mkdir pdf_dir], Raise (KeyError c))).
Proof. apply generate_reports_cases. Qed.

Lemma generate_reports_all_or_nothing_witness :
  (∃ reports,
     collect (λ ir, report_html roster_ab ir.2) (iterrows roster_ab) = Ok reports ∧
     length reports = length (rows roster_ab) ∧
     (∀ i report, reports !! i = Some report →
        ∃ id, cell roster_ab i "Student ID" = Some id ∧ report.1 = py_str id) ∧
     generate_reports roster_ab (Dir "reports") (Dir "pdfs")
     = (Mkdir (Dir "reports") :: Mkdir (Dir "pdfs")
          :: (reports ≫= report_writes (Dir "reports") (Dir "pdfs")), Ok tt)) ∨
  (∃ j c, rows roster_ab ≠ [] ∧
     list_find (λ c, c ∉ columns roster_ab) display_columns = Some (j, c) ∧
     generate_reports roster_ab (Dir "reports") (Dir "pdfs")
     = ([Mkdir (Dir "reports"); Mkdir (Dir "pdfs")], Raise (KeyError c))).
Proof.
  apply (generate_reports_all_or_nothing roster_ab (Dir "reports") (Dir "pdfs")).
  refine (bool_decide_unpack _ _). vm_compute. exact I.
Defined.

(** ** The grades a report lists are the grades that were scored *)

Lemma grade_sum_cons (kv : string * Cell) (fields : Series) :
  grade_sum (kv :: fields) = grade_points (py_str kv.2) + grade_sum fields.
Proof. done. Qed.

Lemma total_score_distinct_labels (row : Series) :
  NoDup (index row) → total_score row = Ok (grade_sum (subject_fields row)).
Proof.
  intros Hnd. unfold total_score.
  rewrite (total_score_loop row row 0); [done|].
  intros [k v] Hkv. by apply series_get_NoDup.
Qed.

Lemma grade_sum_report_fields (cols : list string) (r1 r2 : list Cell) :
  length r1 = length cols → length r2 = length cols →
  (∀ j c, cols !! j = Some c →
     (c ∈ result_columns → r1 !! j = Some (CStr "")) ∧
     (c ∉ result_columns → r1 !! j = r2 !! j)) →
  grade_sum (subject_fields (zip cols r1))
  = grade_sum (report_fields (zip cols r2)).
Proof.
  revert r1 r2. induction cols as [|c cols IH]; intros [|x1 r1] [|x2 r2] Hl1 Hl2 Hpt;
    simplify_eq/=; [done|].
  specialize (IH r1 r2 ltac:(done) ltac:(done)
                (λ j c', Hpt (S j) c')).
  destruct (Hpt 0%nat c eq_refl) as [Hres Hother]. simpl in *.
  unfold subject_fields, report_fields in *.
  destruct (decide (c ∈ result_columns)) as [Hc|Hc].
  - injection (Hres Hc) as ->.
    rewrite (filter_cons_True (λ kv : string * Cell, kv.1 ∉ ["Student ID"; "Name"]))
      by (simpl; unfold result_columns in Hc;
          rewrite !elem_of_cons, elem_of_nil in *; intuition congruence).
    rewrite (filter_cons_False (λ kv : string * Cell, kv.1 ∉ display_columns))
      by (simpl; intros Hn; apply Hn; unfold display_columns;
          do 2 apply list_elem_of_further; exact Hc).
    exact IH.
  - injection (Hother Hc) as ->.
    destruct (decide (c ∈ ["Student ID"; "Name"])) as [Hid|Hid].
    + rewrite (filter_cons_False (λ kv : string * Cell, kv.1 ∉ ["Student ID"; "Name"]))
        by (simpl; intros Hn; by apply Hn).
      rewrite (filter_cons_False (λ kv : string * Cell, kv.1 ∉ display_columns))
        by (simpl; intros Hn; apply Hn; unfold display_columns;
            rewrite !elem_of_cons, elem_of_nil in *; intuition).
      exact IH.
    + rewrite (filter_cons_True (λ kv : string * Cell, kv.1 ∉ ["Student ID"; "Name"]))
        by done.
      rewrite (filter_cons_True (λ kv : string * Cell, kv.1 ∉ display_columns))
        by (simpl; unfold display_columns, result_columns in *;
            rewrite !elem_of_cons, elem_of_nil in *; intuition).
      rewrite !grade_sum_cons. f_equal. exact IH.
Qed.

(** X11: for a table [out] that [allocate] returned: the report of row [i]
    lists, between its heading and its footer, one line for each column
    other than the five read by name, in column order; and the grade points
    of the values listed add up to the score the loop of [allocate] computed
    for that row. *)
Theorem report_lists_the_scored_grades (df out : DataFrame)
    (universities : list University)
    (overrides : option (gmap string Override)) (i : nat) (row row' : Series) :
  well_formed df →
  allocate_frame df universities overrides = Ok out →
  iterrows (blank_result_columns df) !! i = Some (i, row) →
  iterrows out !! i = Some (i, row') →
  report_html out row'
  = (let* v := display_row row' in
     Ok (v.1.1.1.1,
         report_head v.1.1.1.1 v.1.1.1.2
         +:+ concat_strings (subject_line <$> report_fields row')
         +:+ report_tail v.1.1.2 v.1.2 v.2)) ∧
  total_score row = Ok (grade_sum (report_fields row')).
Proof.
  intros Hwf Hout Hrow Hrow'.
  pose proof (allocate_frame_well_formed _ _ _ _ Hwf Hout) as Hwf'.
  pose proof (blank_result_columns_well_formed _ Hwf) as Hwfb.
  split.
  { destruct (iterrows_row_labels out i row' Hwf' Hrow').
    by apply report_html_fields. }
  rewrite (total_score_distinct_labels row (loop_row_labels df i row Hwf Hrow)).
  f_equal.
  apply allocate_frame_returned in Hout as (Hcols & Hlen & Hframe & _); [|done].
  rewrite iterrows_lookup in Hrow, Hrow'.
  apply fmap_Some in Hrow as (r1 & Hr1 & [= ->]).
  apply fmap_Some in Hrow' as (r2 & Hr2 & [= ->]).
  rewrite Hcols, <-columns_blank_result_columns.
  destruct Hwfb as [Hnd Hlenb]. destruct Hwf' as [_ Hlen'].
  apply grade_sum_report_fields.
  - by apply (Forall_lookup_1 _ _ _ _ Hlenb Hr1).
  - rewrite (Forall_lookup_1 _ _ _ _ Hlen' Hr2).
    by rewrite Hcols, <-columns_blank_result_columns.
  - intros j c Hj.
    pose proof (col_pos_NoDup _ j c Hnd Hj) as Hpos.
    assert (cell (blank_result_columns df) i c = r1 !! j) as Hc1
      by (unfold cell; by rewrite Hr1, Hpos).
    assert (cell out i c = r2 !! j) as Hc2.
    { unfold cell. rewrite Hr2. simpl.
      by rewrite Hcols, <-columns_blank_result_columns, Hpos. }
    rewrite cell_blank_result_columns in Hc1 by done.
    split; intros Hc.
    + rewrite decide_True in Hc1 by done.
      rewrite decide_True in Hc1; [done|].
      rewrite <-(length_rows_set_column "Allocated University" (CStr "")),
        <-(length_rows_set_column "Allocated Course" (CStr "")),
        <-(length_rows_set_column "Reasoning" (CStr "")).
      by eapply lookup_lt_Some.
    + rewrite decide_False in Hc1 by done.
      by rewrite <-Hc1, <-Hc2, Hframe.
Qed.

Lemma report_lists_the_scored_grades_witness :
  total_score
    [("Student ID", CStr "S1"); ("Name", CStr "Ann"); ("Math", CStr "A");
     ("Eng", CStr "B"); ("Allocated University", CStr "");
     ("Allocated Course", CStr ""); ("Reasoning", CStr "")]
  = Ok (grade_sum (report_fields
          [("Student ID", CStr "S1"); ("Name", CStr "Ann"); ("Math", CStr "A");
           ("Eng", CStr "B"); ("Allocated University", CStr "UniB");
           ("Allocated Course", CStr "CourseY");
           ("Reasoning", CStr "Total score 9 meets minimum 9")])).
Proof.
  refine (proj2 (report_lists_the_scored_grades roster_ab allocated_ab
                   catalog_xy override_42 0 _ _ _ _ _ _)).
  - refine (bool_decide_unpack _ _). vm_compute. exact I.
  - vm_compute. reflexivity.
  - vm_compute. reflexivity.
  - vm_compute. reflexivity.
Defined.

(** ** The override endpoint *)

(** X12: the upload an override is re-run on: [max] with [os.path.getctime] as
    key picks a listed path of greatest time, and among several of that time
    the first in the order of the listing. *)
Theorem max_by_ctime_first_greatest (first : string * Z) (rest : list (string * Z)) :
  ∃ i, (first :: rest) !! i = Some (max_by_ctime first rest) ∧
    ∀ j q, (first :: rest) !! j = Some q →
      q.2 ≤ (max_by_ctime first rest).2 ∧
      ((j < i)%nat → q.2 < (max_by_ctime first rest).2).
Proof.
  assert (∀ (pre : list (string * Z)) best rest i,
    pre !! i = Some best →
    (∀ j q, pre !! j = Some q → q.2 ≤ best.2 ∧ ((j < i)%nat → q.2 < best.2)) →
    ∃ i', (pre ++ rest) !! i' = Some (max_by_ctime best rest) ∧
      ∀ j q, (pre ++ rest) !! j = Some q →
        q.2 ≤ (max_by_ctime best rest).2 ∧
        ((j < i')%nat → q.2 < (max_by_ctime best rest).2)) as Hgen.
  { intros pre best rest'. revert pre best.
    induction rest' as [|x rest' IH]; intros pre best i Hi Hmax.
    - exists i. rewrite app_nil_r. by split.
    - simpl. replace (pre ++ x :: rest') with ((pre ++ [x]) ++ rest')
        by (by rewrite <-app_assoc).
      assert (i < length pre)%nat by (by eapply lookup_lt_Some).
      case_bool_decide as Hlt.
      + apply (IH (pre ++ [x]) x (length pre)).
        * by apply list_lookup_middle.
        * intros j q [Hj | [Hj Hq]]%lookup_app_Some.
          -- destruct (Hmax j q Hj). lia.
          -- destruct (j - length pre)%nat eqn:Hd; simplify_eq/=. lia.
      + apply (IH (pre ++ [x]) best i).
        * by apply lookup_app_l_Some.
        * intros j q [Hj | [Hj Hq]]%lookup_app_Some.
          -- by apply Hmax.
          -- destruct (j - length pre)%nat eqn:Hd; simplify_eq/=. lia. }
  destruct (Hgen [first] first rest 0%nat) as (i & Hi & Hmax); [done| |by exists i].
  intros [|j] q Hq; simplify_eq/=. lia.
Qed.

Lemma generate_reports_returns (df : DataFrame) (report_dir pdf_dir : Path) :
  well_formed df → (∀ c, c ∈ display_columns → c ∈ columns df) →
  ∃ reports, length reports = length (rows df) ∧
    generate_reports df report_dir pdf_dir
    = (Mkdir report_dir :: Mkdir pdf_dir
         :: (reports ≫= report_writes report_dir pdf_dir), Ok tt).
Proof.
  intros Hwf Hcols.
  destruct (generate_reports_cases df report_dir pdf_dir Hwf)
    as [(reports & _ & Hlen & _ & ->) | (j & c & _ & Hfind & _)];
    [by exists reports|].
  apply list_find_Some in Hfind as (Hj%list_elem_of_lookup_2 & Hc & _).
  by destruct Hc; apply Hcols.
Qed.

Lemma display_columns_of_allocate (df out : DataFrame)
    (universities : list University)
    (overrides : option (gmap string Override)) :
  well_formed df → "Student ID" ∈ columns df → "Name" ∈ columns df →
  allocate_frame df universities overrides = Ok out →
  ∀ c, c ∈ display_columns → c ∈ columns out.
Proof.
  intros Hwf Hid Hname Hout c Hc.
  apply allocate_frame_returned in Hout as (-> & _); [|done].
  destruct (decide (c ∈ columns df)); apply elem_of_app; [by left|right].
  apply list_elem_of_filter. split; [done|].
  unfold display_columns, result_columns in *.
  rewrite !elem_of_cons, elem_of_nil in *.
  destruct Hc as [->|[->|Hc]]; [done..|]. exact Hc.
Qed.

(** X13: a successful override request: when the latest upload is a well-formed
    roster with "Student ID" and "Name" columns and every course of the
    catalog carries a minimum score, the handler stores the override, has
    the HTML and the PDF report of every row written after the two [mkdir]
    calls, and responds with the table of allocations, one row per roster row
    in the roster's order with the roster's identifier and name, in which
    every row whose identifier is the overridden one shows the forced
    university and course with "Manual override applied". *)
Theorem apply_override_shows_the_override (site : Site)
    (student_id university course : string)
    (overrides : gmap string Override) (first : string * Z)
    (rest : list (string * Z)) (w : World) (df : DataFrame)
    (universities : list University) :
  excel_files w !! (max_by_ctime first rest).1 = Some df →
  json_files w !! UNI_JSON site = Some universities →
  well_formed df → "Student ID" ∈ columns df → "Name" ∈ columns df →
  thresholds_present universities →
  ∃ reports vs,
    apply_override site student_id university course overrides
      (first :: rest) w
    = (<[student_id := mkOverride university course]> overrides,
       Mkdir (REPORT_DIR site) :: Mkdir (PDF_DIR site)
         :: (reports ≫= report_writes (REPORT_DIR site) (PDF_DIR site)),
       HTMLResponse
         ("<table><tr><th>Student ID</th><th>Name</th><th>Allocated University</th><th>Allocated Course</th><th>Reasoning</th></tr>"
          +:+ concat_strings (table_row <$> vs) +:+ "</table>")) ∧
    length reports = length (rows df) ∧
    length vs = length (rows df) ∧
    ∀ i v, vs !! i = Some v →
      ∃ id nm,
        cell df i "Student ID" = Some id ∧ cell df i "Name" = Some nm ∧
        v.1.1.1.1 = py_str id ∧ v.1.1.1.2 = py_str nm ∧
        (py_str id = student_id →
         v = (student_id, py_str nm, university, course,
              "Manual override applied")).
Proof.
  intros Hdf Hcat Hwf Hid Hname Hpresent. unfold apply_override. cbv zeta.
  rewrite (allocate_reads _ _ _ _ _ _ Hdf Hcat). cbn [fst].
  destruct (allocate_frame_returns df universities
              (Some (<[student_id := mkOverride university course]> overrides))
              Hwf Hid Hpresent) as [out Hout].
  rewrite Hout.
  pose proof (allocate_frame_well_formed _ _ _ _ Hwf Hout) as Hwf'.
  destruct (generate_reports_returns out (REPORT_DIR site) (PDF_DIR site) Hwf')
    as (reports & Hreports & ->);
    [exact (display_columns_of_allocate df out universities _ Hwf Hid Hname Hout)|].
  destruct (display_values_of_allocate df out universities _ Hwf Hname Hout)
    as (vs & Hvs & Hlen & Hrows).
  rewrite generate_allocations_table_values, Hvs. cbn [rbind].
  exists reports, vs. split_and!; [done| |done|].
  { apply allocate_frame_returned in Hout as (_ & <- & _); done. }
  intros i v Hv.
  destruct (Hrows i v Hv) as (id & nm & row & r & Hcid & Hcnm & _ & Hget & Hr & ->).
  exists id, nm. split_and!; try done.
  intros <-. unfold allocate_row in Hr. rewrite Hget in Hr. cbn [rbind] in Hr.
  cbv zeta in Hr.
  rewrite (find_override_lookup _ _ (mkOverride university course)) in Hr
    by apply lookup_insert_eq.
  by injection Hr as <-.
Qed.

Lemma apply_override_shows_the_override_witness :
  ∃ reports vs,
    apply_override site_ab "42" "UniC" "CourseZ" ∅
      [("old.xlsx", 10); ("roster.xlsx", 20); ("same.xlsx", 20)] world_ab
    = (<["42" := mkOverride "UniC" "CourseZ"]> ∅,
       Mkdir (Dir "reports") :: Mkdir (Dir "pdfs")
         :: (reports ≫= report_writes (Dir "reports") (Dir "pdfs")),
       HTMLResponse
         ("<table><tr><th>Student ID</th><th>Name</th><th>Allocated University</th><th>Allocated Course</th><th>Reasoning</th></tr>"
          +:+ concat_strings (table_row <$> vs) +:+ "</table>")) ∧
    length vs = length (rows roster_ab).
Proof.
  destruct (apply_override_shows_the_override site_ab "42" "UniC" "CourseZ" ∅
              ("old.xlsx", 10) [("roster.xlsx", 20); ("same.xlsx", 20)]
              world_ab roster_ab catalog_xy)
    as (reports & vs & Heq & _ & Hlen & _).
  - vm_compute. reflexivity.
  - vm_compute. reflexivity.
  - refine (bool_decide_unpack _ _). vm_compute. exact I.
  - refine (bool_decide_unpack _ _). vm_compute. exact I.
  - refine (bool_decide_unpack _ _). vm_compute. exact I.
  - refine (bool_decide_unpack _ _). vm_compute. exact I.
  - by exists reports, vs.
Defined.

(** X14: the override is stored whatever becomes of the request: the dictionary
    the handler leaves holds the new entry for the student and every other
    student's entry as before, also when the request fails; and with no
    upload to re-run the request fails with the ValueError of [max] before
    anything is written. *)
Theorem apply_override_always_stores (site : Site)
    (student_id university course : string)
    (overrides : gmap string Override) (xlsx_uploads : list (string * Z))
    (w : World) :
  let stored :=
    (apply_override site student_id university course overrides
       xlsx_uploads w).1.1 in
  stored !! student_id = Some (mkOverride university course) ∧
  (∀ other, other ≠ student_id → stored !! other = overrides !! other) ∧
  (xlsx_uploads = [] →
   apply_override site student_id university course overrides xlsx_uploads w
   = (<[student_id := mkOverride university course]> overrides, [],
      Failed ValueError)).
Proof.
  assert ((apply_override site student_id university course overrides
             xlsx_uploads w).1.1
          = <[student_id := mkOverride university course]> overrides) as ->.
  { unfold apply_override. destruct xlsx_uploads; [done|]. cbv zeta.
    destruct (allocate _ _ _ _).1; [|done].
    destruct (generate_reports _ _ _) as [events [[]|]]; [|done].
    by destruct (generate_allocations_table _). }
  split_and!.
  - apply lookup_insert_eq.
  - intros other Hother. by apply lookup_insert_ne.
  - by intros ->.
Qed.

Lemma apply_override_always_stores_witness :
  apply_override site_ab "S1" "UniC" "CourseZ" ∅ [] world_ab
  = (<["S1" := mkOverride "UniC" "CourseZ"]> ∅, [], Failed ValueError).
Proof.
  apply (proj2 (proj2 (apply_override_always_stores site_ab "S1" "UniC"
                         "CourseZ" ∅ [] world_ab))).
  reflexivity.
Defined.
